(** * The task tools of the shrimp task manager

    A shallow embedding of the tool functions under [src/tools/task]
    ([splitTasks], [splitTasksRaw], [verifyTask], [updateTaskContent],
    [queryTask]) and of the zod schemas that guard them.

    The tools are asynchronous functions that talk to the task store through
    the functions of [models/taskModel.js].  A tool is embedded as a finite
    program ([prog]) over those calls: every [await] is a node of the program,
    a rejected promise is an exception, and [try]/[catch] is a combinator.  A
    program is run against a handler for the calls, which threads the state of
    the store and records the calls that were made. *)

From Stdlib Require Import QArith Qround.
From stdpp Require Import gmap strings list pretty.

(** ** JavaScript values *)

Module JS.

(** A JavaScript number that passed a zod [number()] schema is never [NaN],
    and the schemas of the tools bound every number the tools compare
    ([int()], [min], [max]), which rules out the infinities.  A finite double
    is a rational and comparisons of doubles are exact, so a number is a
    rational here. *)
Definition number : Type := Q.

Definition gt (a b : number) : bool := negb (Qle_bool a b).
Definition ge (a b : number) : bool := Qle_bool b a.
Definition le (a b : number) : bool := Qle_bool a b.

(** [Number.isInteger]. *)
Definition isInteger (a : number) : bool :=
  (Qnum a mod Zpos (Qden a) =? 0)%Z.

(** The [length] of a string, in UTF-16 code units, read off its UTF-8
    bytes: a continuation byte adds nothing, the first byte of a four-byte
    sequence (a surrogate pair) adds two, any other byte one. *)
Definition units (b : Ascii.ascii) : nat :=
  let n := Ascii.nat_of_ascii b in
  if n <? 128 then 1 else if n <? 192 then 0 else if n <? 240 then 1 else 2.

Fixpoint length (s : string) : nat :=
  match s with
  | EmptyString => 0
  | String b rest => units b + length rest
  end.

(** What a [throw] or a rejected promise carries: an [Error] with its
    message, or any other value, kept as [String(value)]. *)
Inductive thrown : Type :=
  | Error (message : string)
  | Value (shown : string).

(** [error instanceof Error ? error.message : String(error)] *)
Definition errorText (error : thrown) : string :=
  match error with
  | Error message => message
  | Value shown => shown
  end.

(** The settlement of a promise. *)
Inductive outcome (X : Type) : Type :=
  | Returned (x : X)
  | Threw (error : thrown).

End JS.

Arguments JS.Returned {X} x.
Arguments JS.Threw {X} error.

(** Truthiness, as [if], [!], [&&] and [||] read a value. *)
Class Truthy (A : Type) : Type := truthy : A → bool.

#[global]
Instance truthy_string : Truthy string :=
  λ s, negb (String.eqb s "").

#[global]
Instance truthy_number : Truthy JS.number :=
  λ a, negb (Qeq_bool a 0).

#[global]
Instance truthy_array {A : Type} : Truthy (list A) :=
  λ _, true.

#[global]
Instance truthy_optional {A : Type} `{Truthy A} : Truthy (option A) :=
  λ o, match o with
       | Some a => truthy a
       | None => false
       end.

(** Characters that a string literal of this file cannot hold. *)
Definition nl : string := String (Ascii.ascii_of_nat 10) EmptyString.
Definition dq : string := String (Ascii.ascii_of_nat 34) EmptyString.
Definition bq : string := String (Ascii.ascii_of_nat 96) EmptyString.

(** ** The data of [types/index.js]

    The tools import these types; their declarations are in another file.
    The records follow the fields the tools read and write and the data
    model of the specification. *)

(** Modelled from the spec: the enumeration [TaskStatus] of
    [types/index.js], with the three states of the status state machine. *)
Inductive TaskStatus : Type :=
  | PENDING
  | IN_PROGRESS
  | COMPLETED.

#[global]
Instance TaskStatus_eq_dec : EqDecision TaskStatus.
Proof. solve_decision. Defined.

(** Modelled from the spec: the string a [TaskStatus] member stands for in a
    template string; the member's name is used. *)
Definition TaskStatus_text (status : TaskStatus) : string :=
  match status with
  | PENDING => "PENDING"
  | IN_PROGRESS => "IN_PROGRESS"
  | COMPLETED => "COMPLETED"
  end.

(** The members are listed by both schemas ([splitTasks.ts] line 59,
    [updateTask.ts] line 35). *)
Inductive RelatedFileType : Type :=
  | TO_MODIFY
  | REFERENCE
  | CREATE
  | DEPENDENCY
  | OTHER.

Module RelatedFile.
Record t : Type := mk {
  path : string;
  type : RelatedFileType;
  description : option string;
  lineStart : option JS.number;
  lineEnd : option JS.number
}.
End RelatedFile.

(** Modelled from the spec: the interface [Task] of [types/index.js]
    (section 3 of the specification).  Timestamps are ticks of a logical
    clock. *)
Module Task.
Record t : Type := mk {
  id : string;
  name : string;
  description : string;
  notes : option string;
  status : TaskStatus;
  dependencies : list string;
  createdAt : nat;
  updatedAt : nat;
  summary : option string;
  relatedFiles : option (list RelatedFile.t);
  implementationGuide : option string;
  verificationCriteria : option string
}.
End Task.

(** One element of the [tasks] argument of [splitTasks], which is also the
    shape [batchCreateOrUpdateTasks] takes ([splitTasks.ts] lines 19-89 and
    133-147). *)
Module TaskSpec.
Record t : Type := mk {
  name : string;
  description : string;
  implementationGuide : string;
  dependencies : option (list string);
  notes : option string;
  relatedFiles : option (list RelatedFile.t);
  verificationCriteria : option string
}.
End TaskSpec.

Inductive UpdateMode : Type :=
  | append
  | overwrite
  | selective
  | clearAllTasks.

#[global]
Instance UpdateMode_eq_dec : EqDecision UpdateMode.
Proof. solve_decision. Defined.

(** The fields [modelUpdateTaskContent] receives ([updateTask.ts] lines
    153-161). *)
Module TaskUpdates.
Record t : Type := mk {
  name : option string;
  description : option string;
  notes : option string;
  relatedFiles : option (list RelatedFile.t);
  dependencies : option (list string);
  implementationGuide : option string;
  verificationCriteria : option string
}.
End TaskUpdates.

(** ** What the functions of [models/taskModel.js] return

    Only the fields the tools read. *)

Module ClearResult.
Record t : Type := mk {
  success : bool;
  message : string;
  backupFile : option string
}.
End ClearResult.

Module UpdateResult.
Record t : Type := mk {
  success : bool;
  message : string;
  task : option Task.t
}.
End UpdateResult.

Module Pagination.
Record t : Type := mk {
  currentPage : JS.number;
  totalPages : JS.number;
  totalResults : JS.number
}.
End Pagination.

Module SearchResult.
Record t : Type := mk {
  tasks : list Task.t;
  pagination : Pagination.t
}.
End SearchResult.

(** ** Programs over the task model

    The functions the tools import from [models/taskModel.js], as the calls
    of a program, each with the type of the value its promise resolves to. *)
Inductive taskModel : Type → Type :=
  | getAllTasks : taskModel (list Task.t)
  | batchCreateOrUpdateTasks
      (taskDataList : list TaskSpec.t) (updateMode : UpdateMode)
      (globalAnalysisResult : option string) : taskModel (list Task.t)
  | modelClearAllTasks : taskModel ClearResult.t
  | getTaskById (taskId : string) : taskModel (option Task.t)
  | updateTaskStatus (taskId : string) (status : TaskStatus) :
      taskModel (option Task.t)
  | updateTaskSummary (taskId : string) (summary : string) :
      taskModel (option Task.t)
  | modelUpdateTaskContent (taskId : string) (updates : TaskUpdates.t) :
      taskModel UpdateResult.t
  | searchTasksWithCommand
      (query : string) (isId : bool) (page pageSize : JS.number) :
      taskModel SearchResult.t.

(** An asynchronous function body: it returns, throws, or awaits a call of
    the task model and goes on with the settlement of its promise. *)
Inductive prog (R : Type) : Type :=
  | Ret (r : R)
  | Throw (error : JS.thrown)
  | Await {X : Type} (op : taskModel X) (k : JS.outcome X → prog R).

Arguments Ret {R} r.
Arguments Throw {R} error.
Arguments Await {R X} op k.

Fixpoint bind {A B : Type} (p : prog A) (f : A → prog B) : prog B :=
  match p with
  | Ret a => f a
  | Throw error => Throw error
  | Await op k => Await op (λ o, bind (k o) f)
  end.

#[global]
Instance prog_ret : MRet prog := @Ret.

#[global]
Instance prog_bind : MBind prog := λ A B f p, bind p f.

(** [await call]: a rejected promise is thrown at the [await]. *)
Definition await {X : Type} (op : taskModel X) : prog X :=
  Await op (λ o, match o with
                 | JS.Returned x => Ret x
                 | JS.Threw error => Throw error
                 end).

(** [try { p } catch (error) { h error }] *)
Fixpoint try_catch {R : Type} (p : prog R) (h : JS.thrown → prog R) : prog R :=
  match p with
  | Ret r => Ret r
  | Throw error => h error
  | Await op k => Await op (λ o, try_catch (k o) h)
  end.

(** A handler answers every call of the task model from a state of the
    store, and leaves the store in a new state. *)
Definition handler (W : Type) : Type :=
  ∀ X : Type, taskModel X → W → JS.outcome X * W.

(** A call that was made, with its arguments. *)
Record call : Type := Call {
  call_type : Type;
  call_op : taskModel call_type
}.

Arguments Call {call_type} call_op.

(** What running a program gives: how its promise settles, the store it
    leaves, and the calls it made, in order. *)
Record run (R W : Type) : Type := Run {
  result : JS.outcome R;
  store : W;
  calls : list call
}.

Arguments Run {R W} result store calls.
Arguments result {R W} r.
Arguments store {R W} r.
Arguments calls {R W} r.

Fixpoint exec {R W : Type} (h : handler W) (p : prog R) (w : W) : run R W :=
  match p with
  | Ret r => Run (JS.Returned r) w []
  | Throw error => Run (JS.Threw error) w []
  | Await op k =>
      let '(o, w1) := h _ op w in
      let r := exec h (k o) w1 in
      Run (result r) (store r) (Call op :: calls r)
  end.

(** ** What a tool answers *)

(** The parameters [getUpdateTaskContentPrompt] is called with
    ([updateTask.ts] lines 87-91, 114-117, 131-133 and 167-173); a parameter
    a call site leaves out is [None]. *)
Module UpdateTaskContentPromptParams.
Record t : Type := mk {
  taskId : string;
  task : option Task.t;
  success : option bool;
  message : option string;
  validationError : option string;
  emptyUpdate : option bool;
  updatedTask : option Task.t
}.
End UpdateTaskContentPromptParams.

(** The parameters [getQueryTaskPrompt] is called with ([queryTask.ts] lines
    47-55). *)
Module QueryTaskPromptParams.
Record t : Type := mk {
  query : string;
  isId : bool;
  tasks : list Task.t;
  totalTasks : JS.number;
  page : JS.number;
  pageSize : JS.number;
  totalPages : JS.number
}.
End QueryTaskPromptParams.

(** The [text] of a content item: a string the tool builds itself, or the
    rendering of a prompt generator of [prompts/index.js].  The generators
    only render text; a rendering is kept as the call that produces it. *)
Inductive text : Type :=
  | str (s : string)
  | getSplitTasksPrompt
      (updateMode : UpdateMode) (createdTasks allTasks : list Task.t)
  | getVerifyTaskPrompt (task : Task.t) (score : JS.number) (summary : string)
  | getUpdateTaskContentPrompt (params : UpdateTaskContentPromptParams.t)
  | getQueryTaskPrompt (params : QueryTaskPromptParams.t).

(** [ephemeral.taskCreationResult] of the answer of [splitTasks]. *)
Module TaskCreationResult.
Record t : Type := mk {
  success : bool;
  message : string;
  backupFilePath : option string
}.
End TaskCreationResult.

(** The object a tool returns.  Every content item has [type: "text"], so
    an item is its text; [isError] and [ephemeral] are [None] where the
    returned object has no such key. *)
Module Response.
Record t : Type := mk {
  content : list text;
  isError : option bool;
  ephemeral : option TaskCreationResult.t
}.
End Response.

(** ** [splitTasks] ([splitTasks.ts]) *)

Module SplitTasksArgs.
Record t : Type := mk {
  updateMode : UpdateMode;
  tasks : list TaskSpec.t;
  globalAnalysisResult : option string
}.
End SplitTasksArgs.

(** Lines 110-123: the loop over [tasks] with the set of the names seen so
    far; [true] when the loop returns the duplicate-name answer. *)
Fixpoint hasDuplicateName (tasks : list TaskSpec.t) (nameSet : gset string) : bool :=
  match tasks with
  | [] => false
  | task :: rest =>
      if decide (TaskSpec.name task ∈ nameSet) then true
      else hasDuplicateName rest ({[TaskSpec.name task]} ∪ nameSet)
  end.

(** Lines 140-146: the copy of a related file. *)
Definition convertFile (file : RelatedFile.t) : RelatedFile.t :=
  {| RelatedFile.path := RelatedFile.path file;
     RelatedFile.type := RelatedFile.type file;
     RelatedFile.description := RelatedFile.description file;
     RelatedFile.lineStart := RelatedFile.lineStart file;
     RelatedFile.lineEnd := RelatedFile.lineEnd file |}.

(** Lines 133-147: the element of [convertedTasks] for a task. *)
Definition convertTask (task : TaskSpec.t) : TaskSpec.t :=
  {| TaskSpec.name := TaskSpec.name task;
     TaskSpec.description := TaskSpec.description task;
     TaskSpec.notes := TaskSpec.notes task;
     TaskSpec.dependencies := TaskSpec.dependencies task;
     TaskSpec.implementationGuide := TaskSpec.implementationGuide task;
     TaskSpec.verificationCriteria := TaskSpec.verificationCriteria task;
     TaskSpec.relatedFiles :=
       (λ files : list RelatedFile.t, convertFile <$> files)
       <$> TaskSpec.relatedFiles task |}.

(** The local variables lines 126-129 declare and lines 150-202 assign. *)
Module Locals.
Record t : Type := mk {
  message : string;
  actionSuccess : bool;
  backupFile : option string;
  createdTasks : list Task.t
}.
End Locals.

(** Lines 185-195: the [switch] has no case for [clearAllTasks], which
    leaves [message] empty. *)
Definition successMessage (updateMode : UpdateMode) (createdTasks : list Task.t) : string :=
  match updateMode with
  | append =>
      "成功追加了 " +:+ pretty (length createdTasks) +:+ " 個新任務。"
  | overwrite =>
      "成功清除未完成任務並創建了 " +:+ pretty (length createdTasks) +:+ " 個新任務。"
  | selective =>
      "成功選擇性更新/創建了 " +:+ pretty (length createdTasks) +:+ " 個任務。"
  | clearAllTasks => ""
  end.

(** Lines 150-202. *)
Definition applyUpdateMode
    (updateMode : UpdateMode) (convertedTasks : list TaskSpec.t)
    (globalAnalysisResult : option string) : prog Locals.t :=
  if decide (updateMode = clearAllTasks) then
    clearResult ← await modelClearAllTasks;
    if ClearResult.success clearResult then
      let message := ClearResult.message clearResult in
      let backupFile := ClearResult.backupFile clearResult in
      try_catch
        (createdTasks ←
           await (batchCreateOrUpdateTasks convertedTasks append globalAnalysisResult);
         mret (Locals.mk
                 (message +:+ nl +:+ "成功創建了 "
                    +:+ pretty (length createdTasks) +:+ " 個新任務。")
                 true backupFile createdTasks))
        (λ error,
           mret (Locals.mk
                   (message +:+ nl +:+ "創建新任務時發生錯誤: "
                      +:+ JS.errorText error)
                   false backupFile []))
    else
      mret (Locals.mk (ClearResult.message clearResult) false None [])
  else
    try_catch
      (createdTasks ←
         await (batchCreateOrUpdateTasks convertedTasks updateMode globalAnalysisResult);
       mret (Locals.mk (successMessage updateMode createdTasks) true None createdTasks))
      (λ error,
         mret (Locals.mk ("任務創建失敗：" +:+ JS.errorText error) false None [])).

(** The answer of lines 113-120. *)
Definition duplicateNameResponse : Response.t :=
  {| Response.content :=
       [str "tasks 參數中存在重複的任務名稱，請確保每個任務名稱是唯一的"];
     Response.isError := None;
     Response.ephemeral := None |}.

(** The answer of lines 212-232. *)
Definition splitTasksResponse (updateMode : UpdateMode) (locals : Locals.t)
    (allTasks : list Task.t) : Response.t :=
  {| Response.content :=
       [getSplitTasksPrompt updateMode (Locals.createdTasks locals) allTasks];
     Response.isError := None;
     Response.ephemeral :=
       Some {| TaskCreationResult.success := Locals.actionSuccess locals;
               TaskCreationResult.message := Locals.message locals;
               TaskCreationResult.backupFilePath := Locals.backupFile locals |} |}.

(** The answer of lines 233-244. *)
Definition splitTasksErrorResponse (error : JS.thrown) : Response.t :=
  {| Response.content :=
       [str ("執行任務拆分時發生錯誤: " +:+ JS.errorText error)];
     Response.isError := None;
     Response.ephemeral := None |}.

(** Lines 103-245. *)
Definition splitTasks (args : SplitTasksArgs.t) : prog Response.t :=
  let updateMode := SplitTasksArgs.updateMode args in
  let tasks := SplitTasksArgs.tasks args in
  let globalAnalysisResult := SplitTasksArgs.globalAnalysisResult args in
  try_catch
    (if hasDuplicateName tasks ∅ then mret duplicateNameResponse
     else
       let convertedTasks := convertTask <$> tasks in
       locals ← applyUpdateMode updateMode convertedTasks globalAnalysisResult;
       allTasks ← try_catch (await getAllTasks)
                    (λ _, mret (Locals.createdTasks locals));
       mret (splitTasksResponse updateMode locals allTasks))
    (λ error, mret (splitTasksErrorResponse error)).

(** ** [splitTasksRaw] ([splitTasksRaw.ts]) *)

Module SplitTasksRawArgs.
Record t : Type := mk {
  updateMode : UpdateMode;
  tasksRaw : string;
  globalAnalysisResult : option string
}.
End SplitTasksRawArgs.

(** What [safeParse] of a zod schema returns. *)
Inductive SafeParse (A : Type) : Type :=
  | ParseSuccess (data : A)
  | ParseFailure (message : string).

Arguments ParseSuccess {A} data.
Arguments ParseFailure {A} message.

Section SplitTasksRaw.

(** [JSON.parse], and [safeParse] of the array schema of lines 28-107 on the
    parsed value: the two library calls of lines 114-144.  A value the schema
    accepts is read as the list of tasks it describes. *)
Variable JSON : Type.
Variable JSON_parse : string → JS.outcome JSON.
Variable tasksSchema_safeParse : JSON → SafeParse (list TaskSpec.t).

(** Lines 110-283.  From line 146 on the body is that of [splitTasks] from
    its line 108 on, line for line (line 175 adds a type cast). *)
Definition splitTasksRaw (args : SplitTasksRawArgs.t) : prog Response.t :=
  let updateMode := SplitTasksRawArgs.updateMode args in
  let tasksRaw := SplitTasksRawArgs.tasksRaw args in
  let globalAnalysisResult := SplitTasksRawArgs.globalAnalysisResult args in
  match JSON_parse tasksRaw with
  | JS.Threw error =>
      mret {| Response.content :=
                [str ("tasksRaw 參數格式錯誤，請確保格式正確，請嘗試修正錯誤，如果文本太長無法順利修復請分批呼叫，這樣可以避免訊息過長導致不好修正問題，錯誤訊息："
                        +:+ JS.errorText error)];
              Response.isError := None;
              Response.ephemeral := None |}
  | JS.Returned parsed =>
      match tasksSchema_safeParse parsed with
      | ParseFailure message =>
          mret {| Response.content :=
                    [str ("tasks 參數格式錯誤，請確保格式正確，錯誤訊息：" +:+ message)];
                  Response.isError := None;
                  Response.ephemeral := None |}
      | ParseSuccess tasks =>
          splitTasks (SplitTasksArgs.mk updateMode tasks globalAnalysisResult)
      end
  end.

End SplitTasksRaw.

(** ** [verifyTask] ([unnamed/part_000]) *)

Module VerifyTaskArgs.
Record t : Type := mk {
  taskId : string;
  summary : string;
  score : JS.number
}.
End VerifyTaskArgs.

(** The answer of lines 42-50. *)
Definition verifyNotFoundResponse (taskId : string) : Response.t :=
  {| Response.content :=
       [str ("## 系統錯誤" +:+ nl +:+ nl +:+ "找不到ID為 " +:+ bq +:+ taskId +:+ bq
               +:+ " 的任務。請使用「list_tasks」工具確認有效的任務ID後再試。")];
     Response.isError := Some true;
     Response.ephemeral := None |}.

(** The answer of lines 54-62. *)
Definition verifyStatusErrorResponse (task : Task.t) : Response.t :=
  {| Response.content :=
       [str ("## 狀態錯誤" +:+ nl +:+ nl +:+ "任務 " +:+ dq +:+ Task.name task +:+ dq
               +:+ " (ID: " +:+ bq +:+ Task.id task +:+ bq +:+ ") 當前狀態為 "
               +:+ dq +:+ TaskStatus_text (Task.status task) +:+ dq
               +:+ "，不處於進行中狀態，無法進行檢驗。" +:+ nl +:+ nl
               +:+ "只有狀態為「進行中」的任務才能進行檢驗。請先使用「execute_task」工具開始任務執行。")];
     Response.isError := Some true;
     Response.ephemeral := None |}.

(** The answer of lines 72-81. *)
Definition verifyTaskResponse (task : Task.t) (score : JS.number) (summary : string) :
    Response.t :=
  {| Response.content := [getVerifyTaskPrompt task score summary];
     Response.isError := None;
     Response.ephemeral := None |}.

(** Lines 34-82. *)
Definition verifyTask (args : VerifyTaskArgs.t) : prog Response.t :=
  let taskId := VerifyTaskArgs.taskId args in
  let summary := VerifyTaskArgs.summary args in
  let score := VerifyTaskArgs.score args in
  task ← await (getTaskById taskId);
  match task with
  | None => mret (verifyNotFoundResponse taskId)
  | Some task =>
      if decide (Task.status task ≠ IN_PROGRESS) then
        mret (verifyStatusErrorResponse task)
      else
        (if JS.ge score 80%Q then
           await (updateTaskSummary taskId summary);;
           await (updateTaskStatus taskId COMPLETED);;
           mret ()
         else mret ());;
        mret (verifyTaskResponse task score summary)
  end.

(** ** [updateTaskContent] ([updateTask.ts]) *)

Module UpdateTaskContentArgs.
Record t : Type := mk {
  taskId : string;
  name : option string;
  description : option string;
  notes : option string;
  relatedFiles : option (list RelatedFile.t);
  dependencies : option (list string);
  implementationGuide : option string;
  verificationCriteria : option string
}.
End UpdateTaskContentArgs.

(** [a && b && a > b] on two optional numbers: [>] is reached only with both
    present. *)
Definition bothAndGreater (a b : option JS.number) : bool :=
  match a, b with
  | Some x, Some y => truthy x && truthy y && JS.gt x y
  | _, _ => false
  end.

(** Lines 78-82: the condition under which the loop returns the validation
    answer. *)
Definition invalidLineRange (file : RelatedFile.t) : bool :=
  let lineStart := RelatedFile.lineStart file in
  let lineEnd := RelatedFile.lineEnd file in
  (truthy lineStart && negb (truthy lineEnd))
  || (negb (truthy lineStart) && truthy lineEnd)
  || bothAndGreater lineStart lineEnd.

(** Lines 76-97: whether the loop over [relatedFiles] returns the
    validation answer.  The answer does not depend on the file that fails. *)
Definition hasInvalidLineRange (relatedFiles : option (list RelatedFile.t)) : bool :=
  match relatedFiles with
  | Some files => existsb invalidLineRange files
  | None => false
  end.

(** Lines 99-109: the condition of the empty-update answer. *)
Definition isEmptyUpdate (args : UpdateTaskContentArgs.t) : bool :=
  negb (truthy (UpdateTaskContentArgs.name args)
        || truthy (UpdateTaskContentArgs.description args)
        || truthy (UpdateTaskContentArgs.notes args)
        || truthy (UpdateTaskContentArgs.dependencies args)
        || truthy (UpdateTaskContentArgs.implementationGuide args)
        || truthy (UpdateTaskContentArgs.verificationCriteria args)
        || truthy (UpdateTaskContentArgs.relatedFiles args)).

Definition emptyPromptParams (taskId : string) : UpdateTaskContentPromptParams.t :=
  {| UpdateTaskContentPromptParams.taskId := taskId;
     UpdateTaskContentPromptParams.task := None;
     UpdateTaskContentPromptParams.success := None;
     UpdateTaskContentPromptParams.message := None;
     UpdateTaskContentPromptParams.validationError := None;
     UpdateTaskContentPromptParams.emptyUpdate := None;
     UpdateTaskContentPromptParams.updatedTask := None |}.

(** The answer of lines 83-94. *)
Definition lineRangeErrorResponse (taskId : string) : Response.t :=
  {| Response.content :=
       [getUpdateTaskContentPrompt
          {| UpdateTaskContentPromptParams.taskId := taskId;
             UpdateTaskContentPromptParams.task := None;
             UpdateTaskContentPromptParams.success := None;
             UpdateTaskContentPromptParams.message := None;
             UpdateTaskContentPromptParams.validationError :=
               Some "行號設置無效：必須同時設置起始行和結束行，且起始行必須小於結束行";
             UpdateTaskContentPromptParams.emptyUpdate := None;
             UpdateTaskContentPromptParams.updatedTask := None |}];
     Response.isError := None;
     Response.ephemeral := None |}.

(** The answer of lines 110-120. *)
Definition emptyUpdateResponse (taskId : string) : Response.t :=
  {| Response.content :=
       [getUpdateTaskContentPrompt
          {| UpdateTaskContentPromptParams.taskId := taskId;
             UpdateTaskContentPromptParams.task := None;
             UpdateTaskContentPromptParams.success := None;
             UpdateTaskContentPromptParams.message := None;
             UpdateTaskContentPromptParams.validationError := None;
             UpdateTaskContentPromptParams.emptyUpdate := Some true;
             UpdateTaskContentPromptParams.updatedTask := None |}];
     Response.isError := None;
     Response.ephemeral := None |}.

(** The answer of lines 127-137. *)
Definition updateNotFoundResponse (taskId : string) : Response.t :=
  {| Response.content := [getUpdateTaskContentPrompt (emptyPromptParams taskId)];
     Response.isError := Some true;
     Response.ephemeral := None |}.

(** Lines 66-178.  Lines 141-150 build a string, [updateSummary], that
    nothing reads; it is left out. *)
Definition updateTaskContent (args : UpdateTaskContentArgs.t) : prog Response.t :=
  let taskId := UpdateTaskContentArgs.taskId args in
  let name := UpdateTaskContentArgs.name args in
  let description := UpdateTaskContentArgs.description args in
  let notes := UpdateTaskContentArgs.notes args in
  let relatedFiles := UpdateTaskContentArgs.relatedFiles args in
  let dependencies := UpdateTaskContentArgs.dependencies args in
  let implementationGuide := UpdateTaskContentArgs.implementationGuide args in
  let verificationCriteria := UpdateTaskContentArgs.verificationCriteria args in
  if hasInvalidLineRange relatedFiles then mret (lineRangeErrorResponse taskId)
  else if isEmptyUpdate args then mret (emptyUpdateResponse taskId)
  else
    task ← await (getTaskById taskId);
    match task with
    | None => mret (updateNotFoundResponse taskId)
    | Some task =>
        result ← await (modelUpdateTaskContent taskId
                          {| TaskUpdates.name := name;
                             TaskUpdates.description := description;
                             TaskUpdates.notes := notes;
                             TaskUpdates.relatedFiles := relatedFiles;
                             TaskUpdates.dependencies := dependencies;
                             TaskUpdates.implementationGuide := implementationGuide;
                             TaskUpdates.verificationCriteria := verificationCriteria |});
        mret {| Response.content :=
                  [getUpdateTaskContentPrompt
                     {| UpdateTaskContentPromptParams.taskId := taskId;
                        UpdateTaskContentPromptParams.task := Some task;
                        UpdateTaskContentPromptParams.success :=
                          Some (UpdateResult.success result);
                        UpdateTaskContentPromptParams.message :=
                          Some (UpdateResult.message result);
                        UpdateTaskContentPromptParams.validationError := None;
                        UpdateTaskContentPromptParams.emptyUpdate := None;
                        UpdateTaskContentPromptParams.updatedTask :=
                          UpdateResult.task result |}];
                Response.isError := Some (negb (UpdateResult.success result));
                Response.ephemeral := None |}
    end.

(** ** [queryTask] ([queryTask.ts]) *)

Module QueryTaskArgs.
Record t : Type := mk {
  query : string;
  isId : option bool;
  page : option JS.number;
  pageSize : option JS.number
}.
End QueryTaskArgs.

(** The answer of lines 47-64. *)
Definition queryTaskResponse (query : string) (isId : bool) (pageSize : JS.number)
    (results : SearchResult.t) : Response.t :=
  {| Response.content :=
       [getQueryTaskPrompt
          {| QueryTaskPromptParams.query := query;
             QueryTaskPromptParams.isId := isId;
             QueryTaskPromptParams.tasks := SearchResult.tasks results;
             QueryTaskPromptParams.totalTasks :=
               Pagination.totalResults (SearchResult.pagination results);
             QueryTaskPromptParams.page :=
               Pagination.currentPage (SearchResult.pagination results);
             QueryTaskPromptParams.pageSize := pageSize;
             QueryTaskPromptParams.totalPages :=
               Pagination.totalPages (SearchResult.pagination results) |}];
     Response.isError := None;
     Response.ephemeral := None |}.

(** Lines 36-78; the defaults are those of the parameter list, lines
    38-40. *)
Definition queryTask (args : QueryTaskArgs.t) : prog Response.t :=
  let query := QueryTaskArgs.query args in
  let isId := default false (QueryTaskArgs.isId args) in
  let page := default 1%Q (QueryTaskArgs.page args) in
  let pageSize := default 3%Q (QueryTaskArgs.pageSize args) in
  try_catch
    (results ← await (searchTasksWithCommand query isId page pageSize);
     mret (queryTaskResponse query isId pageSize results))
    (λ error,
       mret {| Response.content :=
                 [str ("## 系統錯誤" +:+ nl +:+ nl +:+ "查詢任務時發生錯誤: "
                         +:+ JS.errorText error)];
               Response.isError := Some true;
               Response.ephemeral := None |}).

(** ** The zod schemas

    A schema is read on values of the right JavaScript types: whether it
    accepts the value and, for [queryTaskSchema], the value it hands to the
    tool, with the defaults filled in. *)

(** [z.number().int().positive().optional()]: [lineStart] and [lineEnd] in
    [splitTasks.ts] lines 67-78 and [updateTask.ts] lines 38-49, and [page]
    in [queryTask.ts] lines 18-22. *)
Definition positiveIntOptional (n : option JS.number) : bool :=
  match n with
  | None => true
  | Some n => JS.isInteger n && JS.gt n 0%Q
  end.

(** [splitTasks.ts] lines 49-79: one element of [relatedFiles]. *)
Definition splitTasksSchema_relatedFile (file : RelatedFile.t) : bool :=
  (1 <=? JS.length (RelatedFile.path file))
  && match RelatedFile.description file with
     | Some description => 1 <=? JS.length description
     | None => false
     end
  && positiveIntOptional (RelatedFile.lineStart file)
  && positiveIntOptional (RelatedFile.lineEnd file).

(** [splitTasks.ts] lines 19-89: one element of [tasks]. *)
Definition splitTasksSchema_task (task : TaskSpec.t) : bool :=
  (JS.length (TaskSpec.name task) <=? 100)
  && (10 <=? JS.length (TaskSpec.description task))
  && match TaskSpec.relatedFiles task with
     | Some files => forallb splitTasksSchema_relatedFile files
     | None => true
     end.

(** [splitTasks.ts] lines 11-101. *)
Definition splitTasksSchema (args : SplitTasksArgs.t) : bool :=
  (1 <=? length (SplitTasksArgs.tasks args))
  && forallb splitTasksSchema_task (SplitTasksArgs.tasks args).

(** [updateTask.ts] lines 27-50: one element of [relatedFiles]. *)
Definition updateTaskContentSchema_relatedFile (file : RelatedFile.t) : bool :=
  (1 <=? JS.length (RelatedFile.path file))
  && positiveIntOptional (RelatedFile.lineStart file)
  && positiveIntOptional (RelatedFile.lineEnd file).

(** [updateTask.ts] lines 11-64, but for the format of [taskId], which is
    matched against a regular expression of [utils/regex.js]. *)
Definition updateTaskContentSchema (args : UpdateTaskContentArgs.t) : bool :=
  match UpdateTaskContentArgs.relatedFiles args with
  | Some files => forallb updateTaskContentSchema_relatedFile files
  | None => true
  end.

(** [queryTask.ts] lines 25-32:
    [z.number().int().positive().min(1).max(20).optional()]. *)
Definition pageSizeSchema (n : option JS.number) : bool :=
  match n with
  | None => true
  | Some n =>
      JS.isInteger n && JS.gt n 0%Q && JS.ge n 1%Q && JS.le n 20%Q
  end.

(** [queryTask.ts] lines 6-34: [None] when the schema rejects the input,
    else the parsed value, with the defaults of lines 16, 23 and 32. *)
Definition queryTaskSchema (input : QueryTaskArgs.t) : option QueryTaskArgs.t :=
  if (1 <=? JS.length (QueryTaskArgs.query input))
     && positiveIntOptional (QueryTaskArgs.page input)
     && pageSizeSchema (QueryTaskArgs.pageSize input)
  then
    Some {| QueryTaskArgs.query := QueryTaskArgs.query input;
            QueryTaskArgs.isId := Some (default false (QueryTaskArgs.isId input));
            QueryTaskArgs.page := Some (default 1%Q (QueryTaskArgs.page input));
            QueryTaskArgs.pageSize :=
              Some (default 5%Q (QueryTaskArgs.pageSize input)) |}
  else None.

(** ** The task model ([models/taskModel.js])

    The tools import the functions of the task model from another file.
    They are modelled here on the words of the specification (sections 3
    and 4), over an explicit state of the persisted store. *)

Module TaskModel.

(** Modelled from the spec: the persisted state of [models/taskModel.js]
    (section 6): the task collection and the backup snapshots, each under
    its handle; with them the logical clock behind timestamps and handles,
    the supply of fresh identifiers, and whether the backup medium can be
    written (when it cannot, a snapshot fails, section 4.3). *)
Record Store : Type := mkStore {
  tasks : list Task.t;
  backups : list (string * list Task.t);
  clock : nat;
  nextId : nat;
  backupWritable : bool
}.

Definition withTasks (tasks : list Task.t) (s : Store) : Store :=
  {| tasks := tasks;
     backups := backups s;
     clock := S (clock s);
     nextId := nextId s;
     backupWritable := backupWritable s |}.

Definition hasId (taskId : string) (task : Task.t) : bool :=
  bool_decide (Task.id task = taskId).

Definition hasName (name : string) (task : Task.t) : bool :=
  bool_decide (Task.name task = name).

(** Replaces the first task with the given id by its image under [f]. *)
Fixpoint alterTask (taskId : string) (f : Task.t → Task.t) (tasks : list Task.t) :
    list Task.t :=
  match tasks with
  | [] => []
  | task :: rest =>
      if hasId taskId task then f task :: rest
      else task :: alterTask taskId f rest
  end.

Definition setStatus (status : TaskStatus) (now : nat) (task : Task.t) : Task.t :=
  {| Task.id := Task.id task;
     Task.name := Task.name task;
     Task.description := Task.description task;
     Task.notes := Task.notes task;
     Task.status := status;
     Task.dependencies := Task.dependencies task;
     Task.createdAt := Task.createdAt task;
     Task.updatedAt := now;
     Task.summary := Task.summary task;
     Task.relatedFiles := Task.relatedFiles task;
     Task.implementationGuide := Task.implementationGuide task;
     Task.verificationCriteria := Task.verificationCriteria task |}.

Definition setSummary (summary : string) (now : nat) (task : Task.t) : Task.t :=
  {| Task.id := Task.id task;
     Task.name := Task.name task;
     Task.description := Task.description task;
     Task.notes := Task.notes task;
     Task.status := Task.status task;
     Task.dependencies := Task.dependencies task;
     Task.createdAt := Task.createdAt task;
     Task.updatedAt := now;
     Task.summary := Some summary;
     Task.relatedFiles := Task.relatedFiles task;
     Task.implementationGuide := Task.implementationGuide task;
     Task.verificationCriteria := Task.verificationCriteria task |}.

(** The fields of [updates] that are given replace those of the task. *)
Definition setContent (updates : TaskUpdates.t) (now : nat) (task : Task.t) : Task.t :=
  {| Task.id := Task.id task;
     Task.name := default (Task.name task) (TaskUpdates.name updates);
     Task.description :=
       default (Task.description task) (TaskUpdates.description updates);
     Task.notes :=
       match TaskUpdates.notes updates with
       | Some notes => Some notes
       | None => Task.notes task
       end;
     Task.status := Task.status task;
     Task.dependencies :=
       default (Task.dependencies task) (TaskUpdates.dependencies updates);
     Task.createdAt := Task.createdAt task;
     Task.updatedAt := now;
     Task.summary := Task.summary task;
     Task.relatedFiles :=
       match TaskUpdates.relatedFiles updates with
       | Some files => Some files
       | None => Task.relatedFiles task
       end;
     Task.implementationGuide :=
       match TaskUpdates.implementationGuide updates with
       | Some guide => Some guide
       | None => Task.implementationGuide task
       end;
     Task.verificationCriteria :=
       match TaskUpdates.verificationCriteria updates with
       | Some criteria => Some criteria
       | None => Task.verificationCriteria task
       end |}.

(** Modelled from the spec: [getAllTasks] of [models/taskModel.js], the
    [loadAll] of section 4.1. *)
Definition getAllTasks (s : Store) : JS.outcome (list Task.t) * Store :=
  (JS.Returned (tasks s), s).

(** Modelled from the spec: [getTaskById] of [models/taskModel.js], the
    [getById] of section 4.1; no task is [None]. *)
Definition getTaskById (taskId : string) (s : Store) :
    JS.outcome (option Task.t) * Store :=
  (JS.Returned (find (hasId taskId) (tasks s)), s).

(** Modelled from the spec: [updateTaskStatus] of [models/taskModel.js]: the
    transition of section 4.4 as one load, change and save of the
    collection (section 4.1). *)
Definition updateTaskStatus (taskId : string) (status : TaskStatus) (s : Store) :
    JS.outcome (option Task.t) * Store :=
  match find (hasId taskId) (tasks s) with
  | None => (JS.Returned None, s)
  | Some task =>
      (JS.Returned (Some (setStatus status (clock s) task)),
       withTasks (alterTask taskId (setStatus status (clock s)) (tasks s)) s)
  end.

(** Modelled from the spec: [updateTaskSummary] of [models/taskModel.js]:
    "sets [summary]" of section 4.4, as one load, change and save. *)
Definition updateTaskSummary (taskId : string) (summary : string) (s : Store) :
    JS.outcome (option Task.t) * Store :=
  match find (hasId taskId) (tasks s) with
  | None => (JS.Returned None, s)
  | Some task =>
      (JS.Returned (Some (setSummary summary (clock s) task)),
       withTasks (alterTask taskId (setSummary summary (clock s)) (tasks s)) s)
  end.

(** Modelled from the spec: [updateTaskContent] of [models/taskModel.js],
    which the tools import as [modelUpdateTaskContent]: the content update of sections 4.4 and 6, rejected for an unknown id and
    for a Completed task. *)
Definition modelUpdateTaskContent (taskId : string) (updates : TaskUpdates.t) (s : Store) :
    JS.outcome UpdateResult.t * Store :=
  match find (hasId taskId) (tasks s) with
  | None =>
      (JS.Returned (UpdateResult.mk false "NotFoundError: no task has this id" None), s)
  | Some task =>
      if decide (Task.status task = COMPLETED) then
        (JS.Returned
           (UpdateResult.mk false "StateError: a Completed task cannot be edited" None),
         s)
      else
        (JS.Returned
           (UpdateResult.mk true "the task was updated"
              (Some (setContent updates (clock s) task))),
         withTasks (alterTask taskId (setContent updates (clock s)) (tasks s)) s)
  end.

(** The handle of the snapshot taken at a time. *)
Definition backupHandle (now : nat) : string :=
  "tasks_backup_" +:+ pretty now.

(** The store right after a snapshot of the full collection, under the
    handle of the time, and the discarding of every task. *)
Definition cleared (s : Store) : Store :=
  {| tasks := [];
     backups := backups s ++ [(backupHandle (clock s), tasks s)];
     clock := S (clock s);
     nextId := nextId s;
     backupWritable := backupWritable s |}.

(** Modelled from the spec: [clearAllTasks] of [models/taskModel.js], which
    the tools import as [modelClearAllTasks] (sections 4.3 and 4.5): a
    snapshot of the full collection first; when the snapshot fails, a
    failure and no change; else every task is discarded and the handle of
    the snapshot is returned. *)
Definition modelClearAllTasks (s : Store) : JS.outcome ClearResult.t * Store :=
  if backupWritable s then
    (JS.Returned
       (ClearResult.mk true "all tasks were cleared" (Some (backupHandle (clock s)))),
     cleared s)
  else
    (JS.Returned
       (ClearResult.mk false "PersistenceError: the backup could not be written" None),
     s).

(** *** The batch reconciler (section 4.5) and the dependency resolver
    (section 4.2) *)

(** The existing tasks a mode keeps. *)
Definition retained (updateMode : UpdateMode) (existing : list Task.t) : list Task.t :=
  match updateMode with
  | append => existing
  | overwrite => filter (λ task, Task.status task = COMPLETED) existing
  | selective => existing
  | clearAllTasks => []
  end.

Definition freshId (n : nat) : string := "task-" +:+ pretty n.

(** A specification of the batch with the id its task will have: the id of
    the existing task it updates ([target], in [selective] mode), or a fresh
    one. *)
Record Planned : Type := mkPlanned {
  spec : TaskSpec.t;
  plannedId : string;
  target : option Task.t
}.

Fixpoint plan (updateMode : UpdateMode) (kept : list Task.t)
    (specs : list TaskSpec.t) (next : nat) : list Planned * nat :=
  match specs with
  | [] => ([], next)
  | spec :: rest =>
      match (if decide (updateMode = selective)
             then find (hasName (TaskSpec.name spec)) kept
             else None) with
      | Some task =>
          let '(planned, next') := plan updateMode kept rest next in
          (mkPlanned spec (Task.id task) (Some task) :: planned, next')
      | None =>
          let '(planned, next') := plan updateMode kept rest (S next) in
          (mkPlanned spec (freshId next) None :: planned, next')
      end
  end.

(** Section 4.2: an exact id match first, over both pools; else an exact
    name match, a task of the batch before an existing one. *)
Definition resolve (kept : list Task.t) (batch : list Planned) (reference : string) :
    option string :=
  if existsb (hasId reference) kept
     || existsb (λ p, bool_decide (plannedId p = reference)) batch
  then Some reference
  else
    match find (λ p, bool_decide (TaskSpec.name (spec p) = reference)) batch with
    | Some p => Some (plannedId p)
    | None => Task.id <$> find (hasName reference) kept
    end.

(** The ids of a list of references, or the first reference with no
    match. *)
Fixpoint resolveAll (kept : list Task.t) (batch : list Planned)
    (references : list string) : string + list string :=
  match references with
  | [] => inr []
  | reference :: rest =>
      match resolve kept batch reference with
      | None => inl reference
      | Some id =>
          match resolveAll kept batch rest with
          | inl unresolved => inl unresolved
          | inr ids => inr (id :: ids)
          end
      end
  end.

(** The task of a planned specification, given its resolved dependencies
    (an ordered set): an update keeps [id], [name], [createdAt], [status]
    and [summary]; a new task is Pending. *)
Definition build (now : nat) (p : Planned) (dependencies : list string) : Task.t :=
  match target p with
  | Some task =>
      {| Task.id := Task.id task;
         Task.name := Task.name task;
         Task.description := TaskSpec.description (spec p);
         Task.notes := TaskSpec.notes (spec p);
         Task.status := Task.status task;
         Task.dependencies := remove_dups dependencies;
         Task.createdAt := Task.createdAt task;
         Task.updatedAt := now;
         Task.summary := Task.summary task;
         Task.relatedFiles := TaskSpec.relatedFiles (spec p);
         Task.implementationGuide := Some (TaskSpec.implementationGuide (spec p));
         Task.verificationCriteria := TaskSpec.verificationCriteria (spec p) |}
  | None =>
      {| Task.id := plannedId p;
         Task.name := TaskSpec.name (spec p);
         Task.description := TaskSpec.description (spec p);
         Task.notes := TaskSpec.notes (spec p);
         Task.status := PENDING;
         Task.dependencies := remove_dups dependencies;
         Task.createdAt := now;
         Task.updatedAt := now;
         Task.summary := None;
         Task.relatedFiles := TaskSpec.relatedFiles (spec p);
         Task.implementationGuide := Some (TaskSpec.implementationGuide (spec p));
         Task.verificationCriteria := TaskSpec.verificationCriteria (spec p) |}
  end.

(** The tasks of the planned specifications [todo], resolved against the
    kept tasks and the whole batch; or the name of the first task with an
    unresolved reference, and the reference. *)
Fixpoint buildAll (kept : list Task.t) (batch : list Planned) (now : nat)
    (todo : list Planned) : string * string + list Task.t :=
  match todo with
  | [] => inr []
  | p :: rest =>
      match resolveAll kept batch (default [] (TaskSpec.dependencies (spec p))) with
      | inl unresolved => inl (TaskSpec.name (spec p), unresolved)
      | inr dependencies =>
          match buildAll kept batch now rest with
          | inl failure => inl failure
          | inr built => inr (build now p dependencies :: built)
          end
      end
  end.

(** An updated task takes the place of the task it updates; a new task goes
    to the end. *)
Definition commitOne (tasks : list Task.t) (item : Planned * Task.t) : list Task.t :=
  match target item.1 with
  | Some _ => alterTask (Task.id item.2) (λ _, item.2) tasks
  | None => tasks ++ [item.2]
  end.

Definition DependencyError (failure : string * string) : JS.thrown :=
  JS.Error ("DependencyError: task " +:+ failure.1
              +:+ " has an unresolved dependency: " +:+ failure.2).

Definition ValidationError : JS.thrown :=
  JS.Error "ValidationError: two tasks of the batch share a name".

(** Section 4.2 on a whole batch: the tasks of the batch with their
    dependencies resolved against the pool of the mode, or the first
    failure. *)
Definition resolution (updateMode : UpdateMode) (taskDataList : list TaskSpec.t)
    (s : Store) : string * string + list Task.t :=
  let kept := retained updateMode (tasks s) in
  let batch := (plan updateMode kept taskDataList (nextId s)).1 in
  buildAll kept batch (clock s) batch.

(** Modelled from the spec: [batchCreateOrUpdateTasks] of
    [models/taskModel.js], the [reconcileBatch] of sections 4.5 and 4.2.
    The name check and the resolution of every dependency come first and
    change nothing; [clearAllTasks] then takes its snapshot; the reconciled
    collection is saved last, in one step.  The annotation
    [globalAnalysisResult] is informational. *)
Definition batchCreateOrUpdateTasks
    (taskDataList : list TaskSpec.t) (updateMode : UpdateMode)
    (globalAnalysisResult : option string) (s : Store) :
    JS.outcome (list Task.t) * Store :=
  if decide (NoDup (TaskSpec.name <$> taskDataList)) then
    let kept := retained updateMode (tasks s) in
    let '(batch, next) := plan updateMode kept taskDataList (nextId s) in
    match resolution updateMode taskDataList s with
    | inl failure => (JS.Threw (DependencyError failure), s)
    | inr built =>
        let save (s0 : Store) : JS.outcome (list Task.t) * Store :=
          (JS.Returned built,
           {| tasks := foldl commitOne kept (zip batch built);
              backups := backups s0;
              clock := S (clock s0);
              nextId := next;
              backupWritable := backupWritable s0 |}) in
        if decide (updateMode = clearAllTasks) then
          match modelClearAllTasks s with
          | (JS.Returned cleared, s1) =>
              if ClearResult.success cleared then save s1
              else (JS.Threw (JS.Error (ClearResult.message cleared)), s)
          | (JS.Threw error, _) => (JS.Threw error, s)
          end
        else save s
    end
  else (JS.Threw ValidationError, s).

(** *** The search engine (section 4.6) *)

(** Lower case, for the letters of ASCII. *)
Definition lowerByte (b : Ascii.ascii) : Ascii.ascii :=
  let n := Ascii.nat_of_ascii b in
  if (65 <=? n) && (n <=? 90) then Ascii.ascii_of_nat (n + 32) else b.

Fixpoint lower (s : string) : string :=
  match s with
  | EmptyString => EmptyString
  | String b rest => String (lowerByte b) (lower rest)
  end.

Definition isSpace (b : Ascii.ascii) : bool :=
  let n := Ascii.nat_of_ascii b in
  (n =? 32) || ((9 <=? n) && (n <=? 13)).

(** The tokens of a query: the maximal runs without white space; [current]
    holds the run being read, backwards. *)
Fixpoint tokensFrom (current : list Ascii.ascii) (s : string) : list string :=
  let flush := match current with
               | [] => []
               | _ => [String.string_of_list_ascii (rev current)]
               end in
  match s with
  | EmptyString => flush
  | String b rest =>
      if isSpace b then flush ++ tokensFrom [] rest
      else tokensFrom (b :: current) rest
  end.

Definition isSubstring (needle haystack : string) : bool :=
  match String.index 0 needle haystack with
  | Some _ => true
  | None => bool_decide (needle = "")
  end.

(** Every token occurs in [name], [description] or [notes], whatever the
    case of the letters. *)
Definition matchesKeywords (query : string) (task : Task.t) : bool :=
  forallb
    (λ token,
       isSubstring (lower token) (lower (Task.name task))
       || isSubstring (lower token) (lower (Task.description task))
       || match Task.notes task with
          | Some notes => isSubstring (lower token) (lower notes)
          | None => false
          end)
    (tokensFrom [] query).

(** The query is the id or a prefix of it. *)
Definition matchesId (query : string) (task : Task.t) : bool :=
  String.prefix query (Task.id task).

(** Modelled from the spec: [searchTasksWithCommand] of
    [models/taskModel.js], the search of section 4.6: the matches in the
    order of the store, the slice of the page, and the pagination data. *)
Definition searchTasksWithCommand
    (query : string) (isId : bool) (page pageSize : JS.number) (s : Store) :
    JS.outcome SearchResult.t * Store :=
  let matches :=
    List.filter (if isId then matchesId query else matchesKeywords query) (tasks s) in
  let size := Z.to_nat (Qfloor pageSize) in
  let skipped := (Z.to_nat (Qfloor page) - 1) * size in
  (JS.Returned
     {| SearchResult.tasks := take size (drop skipped matches);
        SearchResult.pagination :=
          {| Pagination.currentPage := page;
             Pagination.totalPages :=
               inject_Z (Z.of_nat ((length matches + size - 1) / size));
             Pagination.totalResults := inject_Z (Z.of_nat (length matches)) |} |},
   s).

End TaskModel.

(** The task model as a handler of the calls of a tool. *)
Definition taskModelHandler : handler TaskModel.Store :=
  λ X op,
    match op in taskModel X return TaskModel.Store → JS.outcome X * TaskModel.Store with
    | getAllTasks => TaskModel.getAllTasks
    | batchCreateOrUpdateTasks taskDataList updateMode globalAnalysisResult =>
        TaskModel.batchCreateOrUpdateTasks taskDataList updateMode globalAnalysisResult
    | modelClearAllTasks => TaskModel.modelClearAllTasks
    | getTaskById taskId => TaskModel.getTaskById taskId
    | updateTaskStatus taskId status => TaskModel.updateTaskStatus taskId status
    | updateTaskSummary taskId summary => TaskModel.updateTaskSummary taskId summary
    | modelUpdateTaskContent taskId updates =>
        TaskModel.modelUpdateTaskContent taskId updates
    | searchTasksWithCommand query isId page pageSize =>
        TaskModel.searchTasksWithCommand query isId page pageSize
    end.

(** ** Running composed programs *)

(** The run of [p] followed by the run of its continuation. *)
Definition andThen {A B W : Type} (r : run A W) (k : A → W → run B W) : run B W :=
  match result r with
  | JS.Returned a =>
      let r2 := k a (store r) in
      Run (result r2) (store r2) (calls r ++ calls r2)
  | JS.Threw error => Run (JS.Threw error) (store r) (calls r)
  end.

(** The run of [p] under a [catch] whose handler runs as [k]. *)
Definition orElse {A W : Type} (r : run A W) (k : JS.thrown → W → run A W) : run A W :=
  match result r with
  | JS.Returned a => r
  | JS.Threw error =>
      let r2 := k error (store r) in
      Run (result r2) (store r2) (calls r ++ calls r2)
  end.

(** ** The words of the claims *)

(** Two specifications of the batch, at different places, have one name. *)
Definition sharesName (tasks : list TaskSpec.t) : Prop :=
  ∃ (i j : nat) (a b : TaskSpec.t),
    i ≠ j ∧ tasks !! i = Some a ∧ tasks !! j = Some b
    ∧ TaskSpec.name a = TaskSpec.name b.

(** The pair invariant of a related file fails: one of [lineStart] and
    [lineEnd] without the other, or [lineStart > lineEnd]. *)
Definition malformedPair (file : RelatedFile.t) : Prop :=
  match RelatedFile.lineStart file, RelatedFile.lineEnd file with
  | Some _, None => True
  | None, Some _ => True
  | Some a, Some b => (b < a)%Q
  | None, None => False
  end.

(** What [splitTasks] does after lines 150-202 have run as [r]: it reads
    all tasks (falling back on the created ones) and answers; an exception
    that escaped is answered by the outer [catch]. *)
Definition finishSplit {W : Type} (h : handler W) (updateMode : UpdateMode)
    (r : run Locals.t W) : run Response.t W :=
  match result r with
  | JS.Returned locals =>
      let '(o, w) := h _ getAllTasks (store r) in
      Run (JS.Returned
             (splitTasksResponse updateMode locals
                match o with
                | JS.Returned allTasks => allTasks
                | JS.Threw _ => Locals.createdTasks locals
                end))
        w (calls r ++ [Call getAllTasks])
  | JS.Threw error =>
      Run (JS.Returned (splitTasksErrorResponse error)) (store r) (calls r)
  end.

(** ** Sample data *)

Module Demo.

Definition inProgress : Task.t :=
  {| Task.id := "task-0";
     Task.name := "parser";
     Task.description := "write the parser of the input";
     Task.notes := None;
     Task.status := IN_PROGRESS;
     Task.dependencies := [];
     Task.createdAt := 0;
     Task.updatedAt := 0;
     Task.summary := None;
     Task.relatedFiles := None;
     Task.implementationGuide := None;
     Task.verificationCriteria := None |}.

Definition completed : Task.t :=
  {| Task.id := "task-1";
     Task.name := "lexer";
     Task.description := "write the lexer of the input";
     Task.notes := None;
     Task.status := COMPLETED;
     Task.dependencies := [];
     Task.createdAt := 0;
     Task.updatedAt := 1;
     Task.summary := Some "the lexer is written and tested";
     Task.relatedFiles := None;
     Task.implementationGuide := None;
     Task.verificationCriteria := None |}.

Definition store : TaskModel.Store :=
  {| TaskModel.tasks := [inProgress; completed];
     TaskModel.backups := [];
     TaskModel.clock := 2;
     TaskModel.nextId := 2;
     TaskModel.backupWritable := true |}.

Definition readOnlyBackups : TaskModel.Store :=
  {| TaskModel.tasks := [inProgress; completed];
     TaskModel.backups := [];
     TaskModel.clock := 2;
     TaskModel.nextId := 2;
     TaskModel.backupWritable := false |}.

Definition printer : TaskSpec.t :=
  {| TaskSpec.name := "printer";
     TaskSpec.description := "write the printer of the output";
     TaskSpec.implementationGuide := "walk the tree";
     TaskSpec.dependencies := None;
     TaskSpec.notes := None;
     TaskSpec.relatedFiles := None;
     TaskSpec.verificationCriteria := None |}.

(** A specification whose dependency names no task at all. *)
Definition dangling : TaskSpec.t :=
  {| TaskSpec.name := "checker";
     TaskSpec.description := "write the checker of the tree";
     TaskSpec.implementationGuide := "walk the tree";
     TaskSpec.dependencies := Some ["printer"; "no such task"];
     TaskSpec.notes := None;
     TaskSpec.relatedFiles := None;
     TaskSpec.verificationCriteria := None |}.

(** A related file with [lineStart = 5] and no [lineEnd]. *)
Definition halfRange : RelatedFile.t :=
  {| RelatedFile.path := "src/printer.ts";
     RelatedFile.type := TO_MODIFY;
     RelatedFile.description := Some "the printer";
     RelatedFile.lineStart := Some 5%Q;
     RelatedFile.lineEnd := None |}.

(** A related file with [lineStart = 10] and [lineEnd = 5]. *)
Definition backwardsRange : RelatedFile.t :=
  {| RelatedFile.path := "src/printer.ts";
     RelatedFile.type := TO_MODIFY;
     RelatedFile.description := Some "the printer";
     RelatedFile.lineStart := Some 10%Q;
     RelatedFile.lineEnd := Some 5%Q |}.

Definition withHalfRange : TaskSpec.t :=
  {| TaskSpec.name := "printer";
     TaskSpec.description := "write the printer of the output";
     TaskSpec.implementationGuide := "walk the tree";
     TaskSpec.dependencies := None;
     TaskSpec.notes := None;
     TaskSpec.relatedFiles := Some [halfRange];
     TaskSpec.verificationCriteria := None |}.

End Demo.

(** ** [planTask] ([unnamed/part_001]) *)

Module PlanTaskArgs.
Record t : Type := mk {
  description : string;
  requirements : option string;
  existingTasksReference : option bool
}.
End PlanTaskArgs.

(** The parameters [getPlanTaskPrompt] is called with (lines 59-66). *)
Module PlanTaskPromptParams.
Record t : Type := mk {
  description : string;
  requirements : option string;
  existingTasksReference : bool;
  completedTasks : list Task.t;
  pendingTasks : list Task.t;
  memoryDir : string
}.
End PlanTaskPromptParams.

(** The text of the answer of [planTask]: the rendering of its prompt
    generator, kept as the call that produces it. *)
Inductive planText : Type :=
  | getPlanTaskPrompt (params : PlanTaskPromptParams.t).

(** The object [planTask] returns (lines 68-75). *)
Module PlanResponse.
Record t : Type := mk {
  content : list planText
}.
End PlanResponse.

Section PlanTask.

(** The module's own URL, the functions of [url] and [path] that lines
    33-37 call, and the environment variable [DATA_DIR]. *)
Variable import_meta_url : string.
Variable fileURLToPath : string → string.
Variable path_dirname : string → string.
Variable path_resolve : string → string → string.
Variable path_join : string → string → string.
Variable env_DATA_DIR : option string.

(** Lines 33-37; [a || b] is [a] when [a] is truthy and else [b]. *)
Definition MEMORY_DIR : string :=
  let __filename := fileURLToPath import_meta_url in
  let __dirname := path_dirname __filename in
  let PROJECT_ROOT := path_resolve __dirname "../../.." in
  let DATA_DIR :=
    match env_DATA_DIR with
    | Some dir => if truthy dir then dir else path_join PROJECT_ROOT "data"
    | None => path_join PROJECT_ROOT "data"
    end in
  path_join DATA_DIR "memory".

Definition isCompleted (task : Task.t) : bool :=
  bool_decide (Task.status task = COMPLETED).

(** Lines 27-76; the default of [existingTasksReference] is that of the
    parameter list, line 30.  The pair holds [completedTasks] and
    [pendingTasks]. *)
Definition planTask (args : PlanTaskArgs.t) : prog PlanResponse.t :=
  let description := PlanTaskArgs.description args in
  let requirements := PlanTaskArgs.requirements args in
  let existingTasksReference :=
    default false (PlanTaskArgs.existingTasksReference args) in
  lists ←
    (if existingTasksReference then
       try_catch
         (allTasks ← await getAllTasks;
          mret (List.filter isCompleted allTasks,
                List.filter (λ task, negb (isCompleted task)) allTasks))
         (λ _, mret ([], []))
     else mret ([], []));
  mret {| PlanResponse.content :=
            [getPlanTaskPrompt
               {| PlanTaskPromptParams.description := description;
                  PlanTaskPromptParams.requirements := requirements;
                  PlanTaskPromptParams.existingTasksReference := existingTasksReference;
                  PlanTaskPromptParams.completedTasks := lists.1;
                  PlanTaskPromptParams.pendingTasks := lists.2;
                  PlanTaskPromptParams.memoryDir := MEMORY_DIR |}] |}.

End PlanTask.

(** ** Words for further properties *)

(** A string field that the truthiness tests of the tools read as not
    given: absent, or the empty string. *)
Definition blank (field : option string) : Prop :=
  field = None ∨ field = Some "".

(** The answer of [queryTask] to a search that failed (lines 66-76). *)
Definition queryTaskErrorResponse (error : JS.thrown) : Response.t :=
  {| Response.content :=
       [str ("## 系統錯誤" +:+ nl +:+ nl +:+ "查詢任務時發生錯誤: "
               +:+ JS.errorText error)];
     Response.isError := Some true;
     Response.ephemeral := None |}.

(** The fields [updateTaskContent] hands to the task model (lines
    153-161). *)
Definition updatesOf (args : UpdateTaskContentArgs.t) : TaskUpdates.t :=
  {| TaskUpdates.name := UpdateTaskContentArgs.name args;
     TaskUpdates.description := UpdateTaskContentArgs.description args;
     TaskUpdates.notes := UpdateTaskContentArgs.notes args;
     TaskUpdates.relatedFiles := UpdateTaskContentArgs.relatedFiles args;
     TaskUpdates.dependencies := UpdateTaskContentArgs.dependencies args;
     TaskUpdates.implementationGuide := UpdateTaskContentArgs.implementationGuide args;
     TaskUpdates.verificationCriteria := UpdateTaskContentArgs.verificationCriteria args |}.

(** ** Handlers that fail *)

Module Faults.

Definition offline : JS.thrown := JS.Error "the store is offline".

(** Every call is rejected; the store stays as it is. *)
Definition allFail : handler TaskModel.Store :=
  λ X _ s, (JS.Threw offline, s).

(** The task model, but for [getAllTasks], which is rejected. *)
Definition readsFail : handler TaskModel.Store :=
  λ X op,
    match op in taskModel X return TaskModel.Store → JS.outcome X * TaskModel.Store with
    | getAllTasks => λ s, (JS.Threw offline, s)
    | op => taskModelHandler _ op
    end.

(** The task model, but for [updateTaskStatus], which is rejected. *)
Definition statusFails : handler TaskModel.Store :=
  λ X op,
    match op in taskModel X return TaskModel.Store → JS.outcome X * TaskModel.Store with
    | updateTaskStatus _ _ => λ s, (JS.Threw offline, s)
    | op => taskModelHandler _ op
    end.

(** The task model, but for [updateTaskSummary], which is rejected. *)
Definition summaryFails : handler TaskModel.Store :=
  λ X op,
    match op in taskModel X return TaskModel.Store → JS.outcome X * TaskModel.Store with
    | updateTaskSummary _ _ => λ s, (JS.Threw offline, s)
    | op => taskModelHandler _ op
    end.

(** Stand-ins for the functions of [url] and [path]. *)
Definition dirname (p : string) : string := p +:+ "/..".
Definition join (a b : string) : string := a +:+ "/" +:+ b.

End Faults.

(** ** More sample data *)

Module Sample.

(** A specification that depends on [Demo.printer], by its name. *)
Definition checker : TaskSpec.t :=
  {| TaskSpec.name := "checker";
     TaskSpec.description := "write the checker of the tree";
     TaskSpec.implementationGuide := "walk the tree";
     TaskSpec.dependencies := Some ["printer"];
     TaskSpec.notes := None;
     TaskSpec.relatedFiles := None;
     TaskSpec.verificationCriteria := None |}.

(** The tasks of [Demo.printer] and [checker], created at time 3 with the
    ids 2 and 3. *)
Definition printerTask : Task.t :=
  {| Task.id := "task-2";
     Task.name := "printer";
     Task.description := "write the printer of the output";
     Task.notes := None;
     Task.status := PENDING;
     Task.dependencies := [];
     Task.createdAt := 3;
     Task.updatedAt := 3;
     Task.summary := None;
     Task.relatedFiles := None;
     Task.implementationGuide := Some "walk the tree";
     Task.verificationCriteria := None |}.

Definition checkerTask : Task.t :=
  {| Task.id := "task-3";
     Task.name := "checker";
     Task.description := "write the checker of the tree";
     Task.notes := None;
     Task.status := PENDING;
     Task.dependencies := ["task-2"];
     Task.createdAt := 3;
     Task.updatedAt := 3;
     Task.summary := None;
     Task.relatedFiles := None;
     Task.implementationGuide := Some "walk the tree";
     Task.verificationCriteria := None |}.

End Sample.

(** * Properties *)

Section Exec.

Context {W : Type} (h : handler W).

Lemma run_eta {A : Type} (r : run A W) : Run (result r) (store r) (calls r) = r.
Proof. by destruct r. Qed.

Lemma exec_await {X : Type} (op : taskModel X) (w : W) :
  exec h (await op) w = Run (h X op w).1 (h X op w).2 [Call op].
Proof.
  unfold await; simpl.
  by destruct (h X op w) as [[x | error] w1].
Qed.

Lemma exec_bind {A B : Type} (p : prog A) (f : A → prog B) (w : W) :
  exec h (p ≫= f) w = andThen (exec h p w) (λ a, exec h (f a)).
Proof.
  unfold mbind, prog_bind.
  revert w; induction p as [a | error | X op k IH]; intros w; simpl.
  - unfold andThen; simpl. by rewrite run_eta.
  - done.
  - destruct (h X op w) as [o w1]; simpl.
    rewrite IH. unfold andThen.
    by destruct (exec h (k o) w1) as [[a | error] w2 log].
Qed.

Lemma exec_try_catch {A : Type} (p : prog A) (k : JS.thrown → prog A) (w : W) :
  exec h (try_catch p k) w = orElse (exec h p w) (λ error, exec h (k error)).
Proof.
  revert w; induction p as [a | error | X op k' IH]; intros w; simpl.
  - done.
  - unfold orElse; simpl. by rewrite run_eta.
  - destruct (h X op w) as [o w1]; simpl.
    rewrite IH. unfold orElse.
    by destruct (exec h (k' o) w1) as [[a | error] w2 log].
Qed.

Lemma exec_mret {A : Type} (a : A) (w : W) :
  exec h (mret a) w = Run (JS.Returned a) w [].
Proof. done. Qed.

End Exec.

(** ** The duplicate-name check *)

(** The loop finds a duplicate exactly when a name of the list is in the
    set it starts from, or occurs twice in the list. *)
Lemma hasDuplicateName_spec (tasks : list TaskSpec.t) (nameSet : gset string) :
  hasDuplicateName tasks nameSet = false
  ↔ NoDup (TaskSpec.name <$> tasks)
    ∧ ∀ name, name ∈ TaskSpec.name <$> tasks → name ∉ nameSet.
Proof.
  revert nameSet; induction tasks as [| task rest IH]; intros nameSet; simpl.
  - split; [intros _ | done].
    split; [constructor | intros name Hin; by apply elem_of_nil in Hin].
  - destruct (decide (TaskSpec.name task ∈ nameSet)) as [Hseen | Hnew].
    + split; [done | intros [_ Hout]].
      exfalso. apply (Hout (TaskSpec.name task)); [left | done].
    + rewrite IH, NoDup_cons. split.
      * intros [Hnodup Hout]. split; [split; [| done] |].
        -- intros Hin. apply (Hout _ Hin).
           by apply elem_of_union_l, elem_of_singleton.
        -- intros name [-> | Hin]%elem_of_cons; [done |].
           intros Hold. by apply (Hout _ Hin), elem_of_union_r.
      * intros [[Hfresh Hnodup] Hout]. split; [done |].
        intros name Hin [->%elem_of_singleton | Hold]%elem_of_union; [done |].
        apply (Hout name); [by right | done].
Qed.

Lemma sharesName_not_NoDup (tasks : list TaskSpec.t) :
  sharesName tasks ↔ ¬ NoDup (TaskSpec.name <$> tasks).
Proof.
  rewrite NoDup_alt. split.
  - intros (i & j & a & b & Hne & Hi & Hj & Heq) Hinj.
    apply Hne, (Hinj i j (TaskSpec.name a)).
    + by rewrite list_lookup_fmap, Hi.
    + by rewrite list_lookup_fmap, Hj, Heq.
  - intros Hnot.
    destruct (decide (NoDup (TaskSpec.name <$> tasks))) as [Hnodup | Hdup].
    + exfalso. apply Hnot. by apply NoDup_alt.
    + clear Hnot. induction tasks as [| task rest IH]; simpl in Hdup.
      * exfalso. apply Hdup. constructor.
      * rewrite NoDup_cons in Hdup.
        destruct (decide (TaskSpec.name task ∈ TaskSpec.name <$> rest)) as [Hin | Hout].
        -- apply list_elem_of_fmap in Hin as (b & Heq & Hb).
           apply list_elem_of_lookup in Hb as [j Hj].
           exists 0, (S j), task, b. by repeat split.
        -- destruct IH as (i & j & a & b & Hne & Hi & Hj & Heq); [tauto |].
           exists (S i), (S j), a, b. repeat split; [lia | done..].
Qed.

Lemma hasDuplicateName_sharesName (tasks : list TaskSpec.t) :
  hasDuplicateName tasks ∅ = true ↔ sharesName tasks.
Proof.
  rewrite sharesName_not_NoDup, <- not_false_iff_true, hasDuplicateName_spec.
  split; [intros Hnot Hnodup; apply Hnot; set_solver | tauto].
Qed.

(** ** [splitTasks]: the name check comes before every call *)

Lemma splitTasks_duplicate {W : Type} (h : handler W) (w : W)
    (updateMode : UpdateMode) (tasks : list TaskSpec.t) (g : option string) :
  hasDuplicateName tasks ∅ = true →
  exec h (splitTasks (SplitTasksArgs.mk updateMode tasks g)) w
  = Run (JS.Returned duplicateNameResponse) w [].
Proof.
  intros Hdup. unfold splitTasks; simpl. by rewrite Hdup.
Qed.

Lemma splitTasksRaw_parsed {JSON : Type} (JSON_parse : string → JS.outcome JSON)
    (tasksSchema_safeParse : JSON → SafeParse (list TaskSpec.t))
    (updateMode : UpdateMode) (tasksRaw : string) (g : option string)
    (parsed : JSON) (tasks : list TaskSpec.t) :
  JSON_parse tasksRaw = JS.Returned parsed →
  tasksSchema_safeParse parsed = ParseSuccess tasks →
  splitTasksRaw JSON JSON_parse tasksSchema_safeParse
    (SplitTasksRawArgs.mk updateMode tasksRaw g)
  = splitTasks (SplitTasksArgs.mk updateMode tasks g).
Proof.
  intros Hparse Hschema. unfold splitTasksRaw; simpl.
  by rewrite Hparse, Hschema.
Qed.

(** C4.  A batch in which two task specifications have the same name is
    answered with the duplicate-name validation message, in every update
    mode and whatever the task model does: the tool makes no call of the
    task model at all (so no backup is taken, and no task is cleared or
    created) and the store is left as it was.  This holds for [splitTasks]
    and, when the raw text parses into the batch, for [splitTasksRaw]. *)
Theorem duplicate_names_rejected {W : Type} (h : handler W) (w : W)
    (updateMode : UpdateMode) (tasks : list TaskSpec.t) (g : option string) :
  sharesName tasks →
  exec h (splitTasks (SplitTasksArgs.mk updateMode tasks g)) w
  = Run (JS.Returned duplicateNameResponse) w []
  ∧ ∀ (JSON : Type) (JSON_parse : string → JS.outcome JSON)
      (tasksSchema_safeParse : JSON → SafeParse (list TaskSpec.t))
      (tasksRaw : string) (parsed : JSON),
      JSON_parse tasksRaw = JS.Returned parsed →
      tasksSchema_safeParse parsed = ParseSuccess tasks →
      exec h (splitTasksRaw JSON JSON_parse tasksSchema_safeParse
                (SplitTasksRawArgs.mk updateMode tasksRaw g)) w
      = Run (JS.Returned duplicateNameResponse) w [].
Proof.
  intros Hshared. apply hasDuplicateName_sharesName in Hshared.
  split; [by apply splitTasks_duplicate |].
  intros JSON JSON_parse tasksSchema_safeParse tasksRaw parsed Hparse Hschema.
  rewrite (splitTasksRaw_parsed _ _ _ _ _ _ _ Hparse Hschema).
  by apply splitTasks_duplicate.
Qed.

(** ** [updateTaskContent]: the guards before the lookup *)

Lemma positive_truthy (n : JS.number) : JS.gt n 0%Q = true → truthy n = true.
Proof.
  unfold JS.gt, truthy, truthy_number.
  intros Hpos%negb_true_iff. apply negb_true_iff.
  destruct (Qeq_bool n 0) eqn:Hzero; [| done].
  apply Qeq_bool_iff in Hzero.
  assert (Qle_bool n 0 = true) as Hle; [| congruence].
  apply Qle_bool_iff. rewrite Hzero. apply Qle_refl.
Qed.

Lemma positiveIntOptional_truthy (n : JS.number) :
  positiveIntOptional (Some n) = true → truthy (Some n) = true.
Proof.
  simpl. intros [_ Hpos]%andb_true_iff. by apply positive_truthy.
Qed.

Lemma gt_lt (a b : JS.number) : JS.gt a b = true ↔ (b < a)%Q.
Proof.
  unfold JS.gt. rewrite negb_true_iff, <- not_true_iff_false, Qle_bool_iff.
  split; [apply Qnot_le_lt | apply Qlt_not_le].
Qed.

(** On line numbers the schema accepts, the condition of lines 78-82 is the
    failure of the pair invariant. *)
Lemma invalidLineRange_malformedPair (file : RelatedFile.t) :
  positiveIntOptional (RelatedFile.lineStart file) = true →
  positiveIntOptional (RelatedFile.lineEnd file) = true →
  invalidLineRange file = true ↔ malformedPair file.
Proof.
  unfold invalidLineRange, malformedPair, bothAndGreater; cbv zeta.
  destruct (RelatedFile.lineStart file) as [a |], (RelatedFile.lineEnd file) as [b |];
    intros Hstart Hend.
  - apply positiveIntOptional_truthy in Hstart as Ha.
    apply positiveIntOptional_truthy in Hend as Hb.
    rewrite Ha, Hb.
    change (truthy a = true) in Ha. change (truthy b = true) in Hb.
    rewrite Ha, Hb. simpl. apply gt_lt.
  - apply positiveIntOptional_truthy in Hstart as Ha. by rewrite Ha.
  - apply positiveIntOptional_truthy in Hend as Hb. by rewrite Hb.
  - done.
Qed.

Lemma updateTaskContent_invalid {W : Type} (h : handler W) (w : W)
    (args : UpdateTaskContentArgs.t) :
  hasInvalidLineRange (UpdateTaskContentArgs.relatedFiles args) = true →
  exec h (updateTaskContent args) w
  = Run (JS.Returned (lineRangeErrorResponse (UpdateTaskContentArgs.taskId args))) w [].
Proof. intros Hbad. unfold updateTaskContent. by rewrite Hbad. Qed.

Lemma updateTaskContent_empty {W : Type} (h : handler W) (w : W)
    (args : UpdateTaskContentArgs.t) :
  hasInvalidLineRange (UpdateTaskContentArgs.relatedFiles args) = false →
  isEmptyUpdate args = true →
  exec h (updateTaskContent args) w
  = Run (JS.Returned (emptyUpdateResponse (UpdateTaskContentArgs.taskId args))) w [].
Proof. intros Hfine Hempty. unfold updateTaskContent. by rewrite Hfine, Hempty. Qed.

Lemma updateTaskContent_missing {W : Type} (h : handler W) (w w' : W)
    (args : UpdateTaskContentArgs.t) :
  hasInvalidLineRange (UpdateTaskContentArgs.relatedFiles args) = false →
  isEmptyUpdate args = false →
  h _ (getTaskById (UpdateTaskContentArgs.taskId args)) w = (JS.Returned None, w') →
  exec h (updateTaskContent args) w
  = Run (JS.Returned (updateNotFoundResponse (UpdateTaskContentArgs.taskId args))) w'
      [Call (getTaskById (UpdateTaskContentArgs.taskId args))].
Proof.
  intros Hfine Hgiven Hlookup. unfold updateTaskContent.
  rewrite Hfine, Hgiven. simpl. by rewrite Hlookup.
Qed.

(** C9.  When none of the optional fields of [updateTaskContent] is
    provided, the answer is the empty-update prompt: the tool makes no call
    of the task model (it does not read the task) and leaves the store as it
    was, whatever the task model does and whatever the id is. *)
Theorem empty_update_makes_no_call {W : Type} (h : handler W) (w : W)
    (taskId : string) :
  exec h (updateTaskContent
            (UpdateTaskContentArgs.mk taskId None None None None None None None)) w
  = Run (JS.Returned (emptyUpdateResponse taskId)) w [].
Proof. by apply (updateTaskContent_empty h w). Qed.

(** C10.  In [updateTaskContent] the line-range check comes before the
    lookup of the task: when an element of [relatedFiles] (line numbers as
    the schema admits them) breaks the pair invariant, the answer is the
    line-range validation prompt, no call of the task model is made, and the
    answer is not the not-found answer, whether or not a task has the
    id. *)
Theorem line_range_checked_before_lookup {W : Type} (h : handler W) (w : W)
    (args : UpdateTaskContentArgs.t) (files : list RelatedFile.t)
    (file : RelatedFile.t) :
  updateTaskContentSchema args = true →
  UpdateTaskContentArgs.relatedFiles args = Some files →
  file ∈ files →
  malformedPair file →
  exec h (updateTaskContent args) w
  = Run (JS.Returned (lineRangeErrorResponse (UpdateTaskContentArgs.taskId args))) w []
  ∧ result (exec h (updateTaskContent args) w)
    ≠ JS.Returned (updateNotFoundResponse (UpdateTaskContentArgs.taskId args)).
Proof.
  intros Hschema Hfiles Hin Hbad.
  assert (exec h (updateTaskContent args) w
          = Run (JS.Returned (lineRangeErrorResponse (UpdateTaskContentArgs.taskId args)))
              w []) as Hrun.
  { apply updateTaskContent_invalid. rewrite Hfiles; simpl.
    apply existsb_exists. exists file. split; [by apply list_elem_of_In |].
    unfold updateTaskContentSchema in Hschema. rewrite Hfiles in Hschema.
    rewrite forallb_forall in Hschema.
    specialize (Hschema file (proj1 (list_elem_of_In _ _) Hin)).
    unfold updateTaskContentSchema_relatedFile in Hschema.
    apply andb_true_iff in Hschema as [[_ Hstart]%andb_true_iff Hend].
    by apply invalidLineRange_malformedPair. }
  split; [done |]. by rewrite Hrun.
Qed.

(** ** [verifyTask]: the answers that end the tool early *)

Lemma verifyTask_missing {W : Type} (h : handler W) (w w' : W)
    (args : VerifyTaskArgs.t) :
  h _ (getTaskById (VerifyTaskArgs.taskId args)) w = (JS.Returned None, w') →
  exec h (verifyTask args) w
  = Run (JS.Returned (verifyNotFoundResponse (VerifyTaskArgs.taskId args))) w'
      [Call (getTaskById (VerifyTaskArgs.taskId args))].
Proof.
  intros Hlookup. unfold verifyTask; simpl. by rewrite Hlookup.
Qed.

(** C6.  When the lookup of [verifyTask] finds a task whose status is not
    [IN_PROGRESS] (so Pending or Completed), the answer is the status error,
    flagged [isError], for every score; the lookup is the only call of the
    task model the tool makes, so nothing of the task is changed: the store
    is the one the lookup left. *)
Theorem verify_requires_in_progress {W : Type} (h : handler W) (w w' : W)
    (args : VerifyTaskArgs.t) (task : Task.t) :
  h _ (getTaskById (VerifyTaskArgs.taskId args)) w = (JS.Returned (Some task), w') →
  Task.status task ≠ IN_PROGRESS →
  exec h (verifyTask args) w
  = Run (JS.Returned (verifyStatusErrorResponse task)) w'
      [Call (getTaskById (VerifyTaskArgs.taskId args))]
  ∧ Response.isError (verifyStatusErrorResponse task) = Some true.
Proof.
  intros Hlookup Hstatus. split; [| done].
  unfold verifyTask; simpl. rewrite Hlookup; simpl.
  by destruct (decide (Task.status task ≠ IN_PROGRESS)).
Qed.

(** The strings the truthiness tests read as not given. *)
Lemma truthy_blank (field : option string) : truthy field = false ↔ blank field.
Proof.
  unfold blank. destruct field as [s |]; [| by split; [left |]].
  change (truthy (Some s)) with (negb (String.eqb s "")).
  rewrite negb_false_iff, String.eqb_eq.
  split; [by intros ->; right | by intros [| [= ->]]].
Qed.

Lemma isEmptyUpdate_blank (args : UpdateTaskContentArgs.t) :
  isEmptyUpdate args = true
  ↔ blank (UpdateTaskContentArgs.name args)
    ∧ blank (UpdateTaskContentArgs.description args)
    ∧ blank (UpdateTaskContentArgs.notes args)
    ∧ blank (UpdateTaskContentArgs.implementationGuide args)
    ∧ blank (UpdateTaskContentArgs.verificationCriteria args)
    ∧ UpdateTaskContentArgs.dependencies args = None
    ∧ UpdateTaskContentArgs.relatedFiles args = None.
Proof.
  unfold isEmptyUpdate. rewrite negb_true_iff, !orb_false_iff, !truthy_blank.
  assert (∀ (A : Type) (field : option (list A)), truthy field = false ↔ field = None)
    as Harray by (by intros A [l |]).
  rewrite !Harray. tauto.
Qed.

(** C7, as amended.  When the lookup finds no task with the id:
    [verifyTask] answers with its not-found answer, flagged [isError];
    [updateTaskContent] answers with its not-found answer, flagged
    [isError], when its line-range check finds no fault and its update is
    not empty, and else with the line-range validation prompt or the
    empty-update prompt, without a lookup.  The update is empty exactly
    when each of [name], [description], [notes], [implementationGuide] and
    [verificationCriteria] is absent or the empty string and neither
    [dependencies] nor [relatedFiles] is given: a field given as the empty
    string does not count, an empty array does.  In every case the answer
    is returned, not thrown, and the tool makes no call of the task model
    but the lookup. *)
Theorem unknown_task_id_reported {W : Type} (h : handler W) (w w' : W)
    (taskId : string) :
  h _ (getTaskById taskId) w = (JS.Returned None, w') →
  (∀ (summary : string) (score : JS.number),
     exec h (verifyTask (VerifyTaskArgs.mk taskId summary score)) w
     = Run (JS.Returned (verifyNotFoundResponse taskId)) w' [Call (getTaskById taskId)])
  ∧ (∀ args : UpdateTaskContentArgs.t,
       UpdateTaskContentArgs.taskId args = taskId →
       exec h (updateTaskContent args) w
       = if hasInvalidLineRange (UpdateTaskContentArgs.relatedFiles args)
         then Run (JS.Returned (lineRangeErrorResponse taskId)) w []
         else if isEmptyUpdate args
              then Run (JS.Returned (emptyUpdateResponse taskId)) w []
              else Run (JS.Returned (updateNotFoundResponse taskId)) w'
                     [Call (getTaskById taskId)])
  ∧ Response.isError (verifyNotFoundResponse taskId) = Some true
  ∧ Response.isError (updateNotFoundResponse taskId) = Some true
  ∧ (∀ args : UpdateTaskContentArgs.t,
       isEmptyUpdate args = true
       ↔ blank (UpdateTaskContentArgs.name args)
         ∧ blank (UpdateTaskContentArgs.description args)
         ∧ blank (UpdateTaskContentArgs.notes args)
         ∧ blank (UpdateTaskContentArgs.implementationGuide args)
         ∧ blank (UpdateTaskContentArgs.verificationCriteria args)
         ∧ UpdateTaskContentArgs.dependencies args = None
         ∧ UpdateTaskContentArgs.relatedFiles args = None).
Proof.
  intros Hlookup. split_and!; [| | done | done | apply isEmptyUpdate_blank].
  - intros summary score. by apply (verifyTask_missing h w w').
  - intros args <-.
    destruct (hasInvalidLineRange _) eqn:Hbad;
      [by apply updateTaskContent_invalid |].
    destruct (isEmptyUpdate args) eqn:Hempty;
      [by apply updateTaskContent_empty |].
    by apply updateTaskContent_missing.
Qed.

(** ** [queryTask] and its schema *)

Lemma isInteger_positive_ge_1 (n : JS.number) :
  JS.isInteger n = true → JS.gt n 0%Q = true → (1 <= n)%Q.
Proof.
  destruct n as [num den]. unfold JS.isInteger, JS.gt, Qle_bool, Qle; simpl.
  intros Hint%Z.eqb_eq Hpos%negb_true_iff%Z.leb_gt.
  apply Z.mod_divide in Hint as [k ->]; [| done].
  assert (1 ≤ k)%Z as Hk; [| nia].
  destruct (Z.le_gt_cases 1 k) as [Hle | Hlt]; [done | nia].
Qed.

Lemma ge_1_positive (n : JS.number) : (1 <= n)%Q → JS.gt n 0%Q = true.
Proof.
  intros Hge. apply gt_lt. by apply Qlt_le_trans with 1%Q.
Qed.

Lemma positiveIntOptional_spec (n : JS.number) :
  positiveIntOptional (Some n) = true ↔ JS.isInteger n = true ∧ (1 <= n)%Q.
Proof.
  simpl. rewrite andb_true_iff. split.
  - intros [Hint Hpos]. split; [done |]. by apply isInteger_positive_ge_1.
  - intros [Hint Hge]. split; [done |]. by apply ge_1_positive.
Qed.

Lemma pageSizeSchema_spec (n : JS.number) :
  pageSizeSchema (Some n) = true
  ↔ JS.isInteger n = true ∧ (1 <= n)%Q ∧ (n <= 20)%Q.
Proof.
  simpl. unfold JS.ge, JS.le. rewrite !andb_true_iff, !Qle_bool_iff. split.
  - tauto.
  - intros (Hint & Hge & Hle). repeat split; try done. by apply ge_1_positive.
Qed.

Lemma queryTask_found {W : Type} (h : handler W) (w w' : W)
    (query : string) (isId : bool) (page pageSize : JS.number)
    (results : SearchResult.t) :
  h _ (searchTasksWithCommand query isId page pageSize) w = (JS.Returned results, w') →
  exec h (queryTask (QueryTaskArgs.mk query (Some isId) (Some page) (Some pageSize))) w
  = Run (JS.Returned (queryTaskResponse query isId pageSize results)) w'
      [Call (searchTasksWithCommand query isId page pageSize)].
Proof.
  intros Hsearch. unfold queryTask; simpl. by rewrite Hsearch.
Qed.

(** C8.  The schema of [queryTask] admits a page only when it is an integer
    with [page >= 1] and a page size only when it is an integer with
    [1 <= pageSize <= 20]; an input that gives a page or a page size outside
    these bounds is rejected.  On an admitted input the answer of the tool
    carries what the search returned: its tasks (the page slice) and its
    [totalResults], [totalPages] and [currentPage]. *)
Theorem query_pagination (input : QueryTaskArgs.t) :
  (∀ args : QueryTaskArgs.t,
     queryTaskSchema input = Some args →
     ∃ (isId : bool) (page pageSize : JS.number),
       args = QueryTaskArgs.mk (QueryTaskArgs.query input)
                (Some isId) (Some page) (Some pageSize)
       ∧ JS.isInteger page = true ∧ (1 <= page)%Q
       ∧ JS.isInteger pageSize = true ∧ (1 <= pageSize)%Q ∧ (pageSize <= 20)%Q
       ∧ ∀ (W : Type) (h : handler W) (w w' : W) (results : SearchResult.t),
           h _ (searchTasksWithCommand (QueryTaskArgs.query input) isId page pageSize) w
           = (JS.Returned results, w') →
           result (exec h (queryTask args) w)
           = JS.Returned
               {| Response.content :=
                    [getQueryTaskPrompt
                       {| QueryTaskPromptParams.query := QueryTaskArgs.query input;
                          QueryTaskPromptParams.isId := isId;
                          QueryTaskPromptParams.tasks := SearchResult.tasks results;
                          QueryTaskPromptParams.totalTasks :=
                            Pagination.totalResults (SearchResult.pagination results);
                          QueryTaskPromptParams.page :=
                            Pagination.currentPage (SearchResult.pagination results);
                          QueryTaskPromptParams.pageSize := pageSize;
                          QueryTaskPromptParams.totalPages :=
                            Pagination.totalPages (SearchResult.pagination results) |}];
                  Response.isError := None;
                  Response.ephemeral := None |})
  ∧ (∀ page : JS.number,
       QueryTaskArgs.page input = Some page →
       ¬ (JS.isInteger page = true ∧ (1 <= page)%Q) →
       queryTaskSchema input = None)
  ∧ (∀ pageSize : JS.number,
       QueryTaskArgs.pageSize input = Some pageSize →
       ¬ (JS.isInteger pageSize = true ∧ (1 <= pageSize)%Q ∧ (pageSize <= 20)%Q) →
       queryTaskSchema input = None).
Proof.
  unfold queryTaskSchema. repeat split.
  - intros args Hadmitted.
    destruct (1 <=? JS.length (QueryTaskArgs.query input)); [| done].
    destruct (positiveIntOptional (QueryTaskArgs.page input)) eqn:Hpage; [| done].
    destruct (pageSizeSchema (QueryTaskArgs.pageSize input)) eqn:Hsize; [| done].
    simpl in Hadmitted. injection Hadmitted as <-.
    exists (default false (QueryTaskArgs.isId input)),
      (default 1%Q (QueryTaskArgs.page input)),
      (default 5%Q (QueryTaskArgs.pageSize input)).
    split; [done |].
    assert (JS.isInteger (default 1%Q (QueryTaskArgs.page input)) = true
            ∧ (1 <= default 1%Q (QueryTaskArgs.page input))%Q) as [Hint1 Hge1].
    { destruct (QueryTaskArgs.page input) as [page |];
        [by apply positiveIntOptional_spec | done]. }
    assert (JS.isInteger (default 5%Q (QueryTaskArgs.pageSize input)) = true
            ∧ (1 <= default 5%Q (QueryTaskArgs.pageSize input))%Q
            ∧ (default 5%Q (QueryTaskArgs.pageSize input) <= 20)%Q)
      as (Hint2 & Hge2 & Hle2).
    { destruct (QueryTaskArgs.pageSize input) as [pageSize |];
        [by apply pageSizeSchema_spec | done]. }
    repeat split; try done.
    intros W h w w' results Hsearch.
    exact (f_equal result (queryTask_found h w w' _ _ _ _ results Hsearch)).
  - intros page Hgiven Hout. rewrite Hgiven.
    destruct (positiveIntOptional (Some page)) eqn:Hpage;
      [by apply positiveIntOptional_spec in Hpage |].
    by rewrite andb_false_r.
  - intros pageSize Hgiven Hout. rewrite Hgiven.
    destruct (pageSizeSchema (Some pageSize)) eqn:Hsize;
      [by apply pageSizeSchema_spec in Hsize |].
    by rewrite andb_false_r.
Qed.

(** ** [splitTasks]: the update modes *)

Lemma convertFile_id (file : RelatedFile.t) : convertFile file = file.
Proof. by destruct file. Qed.

Lemma convertFiles_id (files : list RelatedFile.t) : convertFile <$> files = files.
Proof.
  induction files as [| file files IH]; [done |].
  by rewrite fmap_cons, convertFile_id, IH.
Qed.

Lemma convertTask_id (task : TaskSpec.t) : convertTask task = task.
Proof.
  destruct task as [name description guide dependencies notes files criteria].
  unfold convertTask; simpl. f_equal.
  destruct files as [files |]; [| done].
  by rewrite <- (convertFiles_id files) at 2.
Qed.

Lemma convertedTasks_id (tasks : list TaskSpec.t) : convertTask <$> tasks = tasks.
Proof.
  induction tasks as [| task tasks IH]; [done |].
  by rewrite fmap_cons, convertTask_id, IH.
Qed.

Section SplitTasks.

Context {W : Type} (h : handler W).

Lemma exec_splitTasks (w : W) (updateMode : UpdateMode) (tasks : list TaskSpec.t)
    (g : option string) :
  hasDuplicateName tasks ∅ = false →
  exec h (splitTasks (SplitTasksArgs.mk updateMode tasks g)) w
  = finishSplit h updateMode (exec h (applyUpdateMode updateMode tasks g) w).
Proof.
  intros Hnodup. unfold splitTasks.
  cbn [SplitTasksArgs.updateMode SplitTasksArgs.tasks
       SplitTasksArgs.globalAnalysisResult].
  rewrite Hnodup, convertedTasks_id, exec_try_catch, exec_bind.
  unfold finishSplit, andThen, orElse.
  destruct (exec h (applyUpdateMode updateMode tasks g) w)
    as [[locals | error] w1 log]; cbn [result store calls];
    [| by simpl; rewrite app_nil_r].
  rewrite exec_bind, exec_try_catch, exec_await. unfold andThen, orElse.
  by destruct (h _ getAllTasks w1) as [[allTasks | error] w2]; simpl;
    rewrite ?app_nil_r.
Qed.

(** The modes other than [clearAllTasks]: one call, whose failure is
    caught. *)
Lemma exec_applyUpdateMode_direct (w : W) (updateMode : UpdateMode)
    (tasks : list TaskSpec.t) (g : option string) :
  updateMode ≠ clearAllTasks →
  exec h (applyUpdateMode updateMode tasks g) w
  = let '(o, w1) := h _ (batchCreateOrUpdateTasks tasks updateMode g) w in
    Run (JS.Returned
           match o with
           | JS.Returned createdTasks =>
               Locals.mk (successMessage updateMode createdTasks) true None createdTasks
           | JS.Threw error =>
               Locals.mk ("任務創建失敗：" +:+ JS.errorText error) false None []
           end)
      w1 [Call (batchCreateOrUpdateTasks tasks updateMode g)].
Proof.
  intros Hmode. unfold applyUpdateMode.
  destruct (decide (updateMode = clearAllTasks)) as [| _]; [done |].
  rewrite exec_try_catch, exec_bind, exec_await. unfold andThen, orElse.
  by destruct (h _ (batchCreateOrUpdateTasks tasks updateMode g) w)
    as [[createdTasks | error] w1].
Qed.

(** [clearAllTasks]: the clearing call first; the creating call, in
    [append] mode, only after a clearing that succeeded. *)
Lemma exec_applyUpdateMode_clear (w w1 : W) (tasks : list TaskSpec.t)
    (g : option string) (clearResult : ClearResult.t) :
  h _ modelClearAllTasks w = (JS.Returned clearResult, w1) →
  exec h (applyUpdateMode clearAllTasks tasks g) w
  = if ClearResult.success clearResult then
      let '(o, w2) := h _ (batchCreateOrUpdateTasks tasks append g) w1 in
      Run (JS.Returned
             match o with
             | JS.Returned createdTasks =>
                 Locals.mk
                   (ClearResult.message clearResult +:+ nl +:+ "成功創建了 "
                      +:+ pretty (length createdTasks) +:+ " 個新任務。")
                   true (ClearResult.backupFile clearResult) createdTasks
             | JS.Threw error =>
                 Locals.mk
                   (ClearResult.message clearResult +:+ nl
                      +:+ "創建新任務時發生錯誤: " +:+ JS.errorText error)
                   false (ClearResult.backupFile clearResult) []
             end)
        w2 [Call modelClearAllTasks; Call (batchCreateOrUpdateTasks tasks append g)]
    else
      Run (JS.Returned (Locals.mk (ClearResult.message clearResult) false None []))
        w1 [Call modelClearAllTasks].
Proof.
  intros Hclear. unfold applyUpdateMode.
  destruct (decide (clearAllTasks = clearAllTasks)) as [_ |]; [| done].
  rewrite exec_bind, exec_await, Hclear. unfold andThen.
  cbn [result store calls fst snd].
  destruct (ClearResult.success clearResult); [| done].
  rewrite exec_try_catch, exec_bind, exec_await. unfold andThen, orElse.
  by destruct (h _ (batchCreateOrUpdateTasks tasks append g) w1)
    as [[createdTasks | error] w2].
Qed.

End SplitTasks.

(** ** The task model *)

Lemma find_alterTask (taskId : string) (f : Task.t → Task.t) (tasks : list Task.t) :
  (∀ task, Task.id (f task) = Task.id task) →
  find (TaskModel.hasId taskId) (TaskModel.alterTask taskId f tasks)
  = f <$> find (TaskModel.hasId taskId) tasks.
Proof.
  intros Hid. induction tasks as [| task rest IH]; simpl; [done |].
  destruct (TaskModel.hasId taskId task) eqn:Hhere; simpl.
  - unfold TaskModel.hasId in *. by rewrite Hid, Hhere.
  - by rewrite Hhere.
Qed.

(** A failed resolution does not depend on the time. *)
Lemma buildAll_failure_clock (kept : list Task.t) (batch todo : list TaskModel.Planned)
    (now now' : nat) (failure : string * string) :
  TaskModel.buildAll kept batch now todo = inl failure →
  TaskModel.buildAll kept batch now' todo = inl failure.
Proof.
  revert failure. induction todo as [| p rest IH]; intros failure; simpl; [done |].
  destruct (TaskModel.resolveAll kept batch _) as [unresolved | ids]; [done |].
  destruct (TaskModel.buildAll kept batch now rest) as [failure' | built];
    [| done].
  intros [= <-]. by rewrite (IH failure').
Qed.

(** Outside [selective] mode the plan of a batch does not look at the
    existing tasks. *)
Lemma plan_not_selective (updateMode : UpdateMode) (kept : list Task.t)
    (specs : list TaskSpec.t) (next : nat) :
  updateMode ≠ selective →
  TaskModel.plan updateMode kept specs next = TaskModel.plan append [] specs next.
Proof.
  intros Hmode. revert next. induction specs as [| spec rest IH]; intros next;
    simpl; [done |].
  destruct (decide (updateMode = selective)); [done |]. by rewrite IH.
Qed.

(** The resolution that [append] runs on the cleared store fails as the
    resolution of [clearAllTasks] does. *)
Lemma resolution_cleared (tasks : list TaskSpec.t) (s : TaskModel.Store)
    (failure : string * string) :
  TaskModel.resolution clearAllTasks tasks s = inl failure →
  TaskModel.resolution append tasks (TaskModel.cleared s) = inl failure.
Proof.
  unfold TaskModel.resolution; simpl.
  rewrite (plan_not_selective clearAllTasks) by done.
  apply buildAll_failure_clock.
Qed.

(** The batch reconciler is atomic on a failed resolution. *)
Lemma batchCreateOrUpdateTasks_unresolved (tasks : list TaskSpec.t)
    (updateMode : UpdateMode) (g : option string) (s : TaskModel.Store)
    (failure : string * string) :
  NoDup (TaskSpec.name <$> tasks) →
  TaskModel.resolution updateMode tasks s = inl failure →
  TaskModel.batchCreateOrUpdateTasks tasks updateMode g s
  = (JS.Threw (TaskModel.DependencyError failure), s).
Proof.
  intros Hnodup Hfailure. unfold TaskModel.batchCreateOrUpdateTasks.
  destruct (decide (NoDup (TaskSpec.name <$> tasks))); [| done].
  destruct (TaskModel.plan _ _ _ _) as [batch next]. by rewrite Hfailure.
Qed.

Lemma hasDuplicateName_NoDup (tasks : list TaskSpec.t) :
  hasDuplicateName tasks ∅ = false ↔ NoDup (TaskSpec.name <$> tasks).
Proof.
  rewrite hasDuplicateName_spec. split; [tauto |].
  intros Hnodup. split; [done |]. intros name _. apply not_elem_of_empty.
Qed.

Lemma not_sharesName (tasks : list TaskSpec.t) :
  ¬ sharesName tasks ↔ hasDuplicateName tasks ∅ = false.
Proof.
  rewrite <- hasDuplicateName_sharesName. by destruct (hasDuplicateName tasks ∅).
Qed.

Lemma modelClearAllTasks_writable (s : TaskModel.Store) :
  TaskModel.backupWritable s = true →
  TaskModel.modelClearAllTasks s
  = (JS.Returned
       (ClearResult.mk true "all tasks were cleared"
          (Some (TaskModel.backupHandle (TaskModel.clock s)))),
     TaskModel.cleared s).
Proof.
  intros Hwritable. unfold TaskModel.modelClearAllTasks.
  by rewrite Hwritable.
Qed.

Lemma modelClearAllTasks_readOnly (s : TaskModel.Store) :
  TaskModel.backupWritable s = false →
  TaskModel.modelClearAllTasks s
  = (JS.Returned
       (ClearResult.mk false "PersistenceError: the backup could not be written" None),
     s).
Proof.
  intros Hwritable. unfold TaskModel.modelClearAllTasks. by rewrite Hwritable.
Qed.

(** In [append] mode every specification is planned as a new task, with
    the fresh ids in order. *)
Lemma plan_append (kept : list Task.t) (specs : list TaskSpec.t) (next : nat) :
  (TaskModel.plan append kept specs next).2 = next + length specs
  ∧ length (TaskModel.plan append kept specs next).1 = length specs
  ∧ ∀ (i : nat) (spec : TaskSpec.t),
      specs !! i = Some spec →
      (TaskModel.plan append kept specs next).1 !! i
      = Some (TaskModel.mkPlanned spec (TaskModel.freshId (next + i)) None).
Proof.
  revert next. induction specs as [| spec rest IH]; intros next; simpl.
  - split_and!; [lia | done | done].
  - destruct (IH (S next)) as (Hnext & Hlength & Hlookup).
    destruct (TaskModel.plan append kept rest (S next)) as [planned next'] eqn:Hplan.
    simpl in *. split_and!; [lia | by rewrite Hlength |].
    intros [| i] spec'; simpl.
    + intros [= ->]. by rewrite Nat.add_0_r.
    + intros Hspec. rewrite (Hlookup i spec' Hspec). do 3 f_equal. lia.
Qed.

Lemma plan_append_target (kept : list Task.t) (specs : list TaskSpec.t) (next : nat)
    (p : TaskModel.Planned) :
  p ∈ (TaskModel.plan append kept specs next).1 → TaskModel.target p = None.
Proof.
  intros [i Hp]%list_elem_of_lookup_1.
  destruct (plan_append kept specs next) as (_ & Hlength & Hlookup).
  destruct (specs !! i) as [spec |] eqn:Hspec.
  - rewrite (Hlookup i spec Hspec) in Hp. by injection Hp as <-.
  - apply lookup_ge_None in Hspec. apply lookup_lt_Some in Hp. lia.
Qed.

(** With no kept task, a reference resolves to itself when it is the id
    of a task of the batch, and else to the id of a task of the batch with
    that name. *)
Lemma resolve_in_batch (batch : list TaskModel.Planned) (reference id : string) :
  TaskModel.resolve [] batch reference = Some id →
  if decide (reference ∈ TaskModel.plannedId <$> batch) then id = reference
  else ∃ p : TaskModel.Planned,
         p ∈ batch ∧ TaskSpec.name (TaskModel.spec p) = reference
         ∧ TaskModel.plannedId p = id.
Proof.
  unfold TaskModel.resolve; simpl.
  destruct (existsb _ batch) eqn:Hid.
  - intros [= <-]. apply existsb_exists in Hid as (p & Hp & Heq).
    apply bool_decide_eq_true in Heq.
    destruct (decide (reference ∈ TaskModel.plannedId <$> batch)) as [| Hout];
      [done |].
    destruct Hout. apply list_elem_of_fmap. exists p.
    split; [done |]. by apply list_elem_of_In.
  - destruct (decide (reference ∈ TaskModel.plannedId <$> batch)) as [Hin |].
    { apply list_elem_of_fmap in Hin as (p & -> & Hp).
      assert (existsb
                (λ p0, bool_decide (TaskModel.plannedId p0 = TaskModel.plannedId p))
                batch = true) as Hfound.
      { apply existsb_exists. exists p.
        split; [by apply list_elem_of_In | by apply bool_decide_eq_true]. }
      by rewrite Hfound in Hid. }
    destruct (find _ batch) as [p |] eqn:Hname; [| done].
    intros [= <-]. apply find_some in Hname as [Hp Heq].
    apply bool_decide_eq_true in Heq.
    exists p. split; [by apply list_elem_of_In | done].
Qed.

Lemma resolveAll_each (kept : list Task.t) (batch : list TaskModel.Planned)
    (references ids : list string) :
  TaskModel.resolveAll kept batch references = inr ids →
  Forall2 (λ reference id, TaskModel.resolve kept batch reference = Some id)
    references ids.
Proof.
  revert ids. induction references as [| reference rest IH]; intros ids; simpl.
  - intros [= <-]. constructor.
  - destruct (TaskModel.resolve kept batch reference) as [id |] eqn:Hid; [| done].
    destruct (TaskModel.resolveAll kept batch rest) as [| ids']; [done |].
    intros [= <-]. constructor; [done | by apply IH].
Qed.

(** A resolution that succeeds builds one task per planned specification,
    in order. *)
Lemma buildAll_lookup (kept : list Task.t) (batch todo : list TaskModel.Planned)
    (now : nat) (built : list Task.t) :
  TaskModel.buildAll kept batch now todo = inr built →
  length built = length todo
  ∧ ∀ (i : nat) (p : TaskModel.Planned),
      todo !! i = Some p →
      ∃ ids : list string,
        TaskModel.resolveAll kept batch
          (default [] (TaskSpec.dependencies (TaskModel.spec p))) = inr ids
        ∧ built !! i = Some (TaskModel.build now p ids).
Proof.
  revert built. induction todo as [| p rest IH]; intros built; simpl.
  - intros [= <-]. by split.
  - destruct (TaskModel.resolveAll kept batch _) as [| ids] eqn:Hids; [done |].
    destruct (TaskModel.buildAll kept batch now rest) as [| built'] eqn:Hbuilt;
      [done |].
    intros [= <-]. destruct (IH built' eq_refl) as [Hlength Hlookup].
    split; [simpl; by rewrite Hlength |].
    intros [| i] p'; simpl.
    + intros [= <-]. by exists ids.
    + apply Hlookup.
Qed.

(** The tasks of new specifications go to the end of the collection, in
    order. *)
Lemma commit_new (kept : list Task.t) (items : list (TaskModel.Planned * Task.t)) :
  Forall (λ item, TaskModel.target item.1 = None) items →
  foldl TaskModel.commitOne kept items = kept ++ items.*2.
Proof.
  revert kept. induction items as [| item rest IH]; intros kept Hnew; simpl.
  - by rewrite app_nil_r.
  - apply Forall_cons in Hnew as [Hitem Hrest].
    rewrite IH by done. unfold TaskModel.commitOne. rewrite Hitem.
    by rewrite <- app_assoc.
Qed.

(** [append] on a store with no task, for a batch that passes both checks:
    the store then holds the tasks of the batch and nothing else. *)
Lemma batchCreateOrUpdateTasks_on_empty (tasks : list TaskSpec.t) (g : option string)
    (s : TaskModel.Store) (created : list Task.t) :
  NoDup (TaskSpec.name <$> tasks) →
  TaskModel.tasks s = [] →
  TaskModel.resolution append tasks s = inr created →
  TaskModel.batchCreateOrUpdateTasks tasks append g s
  = (JS.Returned created,
     {| TaskModel.tasks := created;
        TaskModel.backups := TaskModel.backups s;
        TaskModel.clock := S (TaskModel.clock s);
        TaskModel.nextId := TaskModel.nextId s + length tasks;
        TaskModel.backupWritable := TaskModel.backupWritable s |}).
Proof.
  intros Hnodup Hempty Hcreated. unfold TaskModel.batchCreateOrUpdateTasks.
  destruct (decide (NoDup (TaskSpec.name <$> tasks))); [| done].
  rewrite Hcreated. unfold TaskModel.resolution in Hcreated.
  rewrite Hempty in *. simpl in *.
  destruct (plan_append [] tasks (TaskModel.nextId s)) as (Hnext & Hlength & _).
  pose proof (plan_append_target [] tasks (TaskModel.nextId s)) as Htarget.
  destruct (TaskModel.plan append [] tasks (TaskModel.nextId s)) as [batch next].
  simpl in *. subst next.
  apply buildAll_lookup in Hcreated as [Hbuilt _].
  rewrite commit_new.
  - rewrite snd_zip by lia. done.
  - apply Forall_forall. intros [p task] Hitem. simpl.
    apply Htarget. by apply elem_of_zip_l in Hitem.
Qed.

(** What the resolution on a store with no task builds: for each
    specification, in order, a Pending task with the next fresh id and the
    fields of the specification.  Its dependencies are the ids its
    references resolve to, without repetition: a reference that is the id of
    a new task is that id, any other is the id of the new task with that
    name. *)
Lemma resolution_on_empty (tasks : list TaskSpec.t) (s : TaskModel.Store)
    (created : list Task.t) :
  TaskModel.tasks s = [] →
  TaskModel.resolution append tasks s = inr created →
  length created = length tasks
  ∧ ∀ (i : nat) (spec : TaskSpec.t),
      tasks !! i = Some spec →
      ∃ task : Task.t,
        created !! i = Some task
        ∧ Task.id task = TaskModel.freshId (TaskModel.nextId s + i)
        ∧ Task.name task = TaskSpec.name spec
        ∧ Task.description task = TaskSpec.description spec
        ∧ Task.notes task = TaskSpec.notes spec
        ∧ Task.status task = PENDING
        ∧ Task.summary task = None
        ∧ Task.createdAt task = TaskModel.clock s
        ∧ Task.relatedFiles task = TaskSpec.relatedFiles spec
        ∧ Task.implementationGuide task = Some (TaskSpec.implementationGuide spec)
        ∧ Task.verificationCriteria task = TaskSpec.verificationCriteria spec
        ∧ ∃ ids : list string,
            Task.dependencies task = remove_dups ids
            ∧ Forall2
                (λ reference id,
                   if decide (reference ∈ Task.id <$> created) then id = reference
                   else ∃ (j : nat) (named : Task.t),
                          created !! j = Some named
                          ∧ Task.name named = reference ∧ Task.id named = id)
                (default [] (TaskSpec.dependencies spec)) ids.
Proof.
  intros Hempty. unfold TaskModel.resolution. rewrite Hempty. simpl.
  destruct (plan_append [] tasks (TaskModel.nextId s)) as (_ & Hlength & Hplanned).
  pose proof (plan_append_target [] tasks (TaskModel.nextId s)) as Htarget.
  set (batch := (TaskModel.plan append [] tasks (TaskModel.nextId s)).1) in *.
  intros [Hbuilt Hlookup]%buildAll_lookup.
  assert (Hids : TaskModel.plannedId <$> batch = Task.id <$> created).
  { apply list_eq. intros i. rewrite !list_lookup_fmap.
    destruct (batch !! i) as [p |] eqn:Hp; simpl.
    - destruct (Hlookup i p Hp) as (ids & _ & ->). simpl.
      unfold TaskModel.build. rewrite (Htarget p); [done |].
      by eapply list_elem_of_lookup_2.
    - apply lookup_ge_None in Hp.
      rewrite (proj2 (lookup_ge_None created i)) by lia. done. }
  split; [lia |]. intros i spec Hspec.
  destruct (Hlookup i _ (Hplanned i spec Hspec)) as (ids & Hresolved & Htask).
  eexists. split; [exact Htask |]. simpl. split_and!; try done.
  exists ids. split; [done |]. rewrite <- Hids.
  apply resolveAll_each in Hresolved.
  eapply Forall2_impl; [exact Hresolved |].
  intros reference id Hid%resolve_in_batch.
  destruct (decide (reference ∈ TaskModel.plannedId <$> batch)); [done |].
  destruct Hid as (p & [j Hp]%list_elem_of_lookup_1 & Hname & Hplanned').
  destruct (Hlookup j p Hp) as (ids' & _ & Hnamed).
  eexists j, _. split; [exact Hnamed |].
  unfold TaskModel.build. by rewrite (Htarget p) by by eapply list_elem_of_lookup_2.
Qed.

(** C1, as amended.  On the modelled store: a batch in which two
    specifications share a name is answered with the validation message in
    every mode, before any call, and the store is left as it was.  In the
    modes [append], [overwrite] and [selective] a batch whose dependency
    resolution fails is answered with a failed creation that carries the
    error, and the store is left as it was.  In [clearAllTasks] mode the
    resolution runs only after the snapshot and the clearing: its failure is
    answered with a failed creation that carries the error and the handle of
    the backup, and the store is left cleared, its former tasks in the
    backup.  [splitTasksRaw] is [splitTasks] on the batch its text parses
    into. *)
Theorem failed_check_leaves_store (s : TaskModel.Store) (updateMode : UpdateMode)
    (tasks : list TaskSpec.t) (g : option string) :
  (sharesName tasks →
   exec taskModelHandler (splitTasks (SplitTasksArgs.mk updateMode tasks g)) s
   = Run (JS.Returned duplicateNameResponse) s [])
  ∧ (∀ failure : string * string,
       ¬ sharesName tasks →
       TaskModel.resolution updateMode tasks s = inl failure →
       updateMode ≠ clearAllTasks →
       exec taskModelHandler (splitTasks (SplitTasksArgs.mk updateMode tasks g)) s
       = Run (JS.Returned
                (splitTasksResponse updateMode
                   (Locals.mk
                      ("任務創建失敗：" +:+ JS.errorText (TaskModel.DependencyError failure))
                      false None [])
                   (TaskModel.tasks s)))
           s [Call (batchCreateOrUpdateTasks tasks updateMode g); Call getAllTasks])
  ∧ (∀ failure : string * string,
       ¬ sharesName tasks →
       TaskModel.resolution updateMode tasks s = inl failure →
       updateMode = clearAllTasks →
       TaskModel.backupWritable s = true →
       exec taskModelHandler (splitTasks (SplitTasksArgs.mk updateMode tasks g)) s
       = Run (JS.Returned
                (splitTasksResponse clearAllTasks
                   (Locals.mk
                      ("all tasks were cleared" +:+ nl +:+ "創建新任務時發生錯誤: "
                         +:+ JS.errorText (TaskModel.DependencyError failure))
                      false (Some (TaskModel.backupHandle (TaskModel.clock s))) [])
                   []))
           (TaskModel.cleared s)
           [Call modelClearAllTasks; Call (batchCreateOrUpdateTasks tasks append g);
            Call getAllTasks])
  ∧ (∀ (JSON : Type) (JSON_parse : string → JS.outcome JSON)
       (tasksSchema_safeParse : JSON → SafeParse (list TaskSpec.t))
       (tasksRaw : string) (parsed : JSON),
       JSON_parse tasksRaw = JS.Returned parsed →
       tasksSchema_safeParse parsed = ParseSuccess tasks →
       splitTasksRaw JSON JSON_parse tasksSchema_safeParse
         (SplitTasksRawArgs.mk updateMode tasksRaw g)
       = splitTasks (SplitTasksArgs.mk updateMode tasks g)).
Proof.
  split_and!.
  - intros Hshared. by apply splitTasks_duplicate, hasDuplicateName_sharesName.
  - intros failure Hnames%not_sharesName Hfailure Hmode.
    rewrite exec_splitTasks, exec_applyUpdateMode_direct by done.
    cbn [taskModelHandler].
    apply hasDuplicateName_NoDup in Hnames.
    by rewrite (batchCreateOrUpdateTasks_unresolved _ _ _ _ failure).
  - intros failure Hnames%not_sharesName Hfailure -> Hwritable.
    rewrite exec_splitTasks by done.
    rewrite (exec_applyUpdateMode_clear _ _ _ _ _ _
               (modelClearAllTasks_writable s Hwritable)).
    cbn [ClearResult.success taskModelHandler].
    apply hasDuplicateName_NoDup in Hnames.
    by rewrite (batchCreateOrUpdateTasks_unresolved _ _ _ _ failure)
      by (done || by apply resolution_cleared).
  - intros JSON JSON_parse tasksSchema_safeParse tasksRaw parsed.
    apply splitTasksRaw_parsed.
Qed.

(** C2, as amended.  On the modelled store, in [clearAllTasks] mode.  A
    batch in which two specifications share a name is answered with the
    validation message before any call: no snapshot is taken and the store
    is left as it was.  For every other batch the first call is the
    clearing call, which takes the snapshot of the full collection.  When
    the snapshot fails the tool makes no creating call, the store is left
    as it was, and the answer reports the failure, with no backup path.
    When it succeeds every task is discarded, Completed ones included, the
    former collection is the newest backup, the creating call is then made
    in [append] mode on the store with no task, and the answer carries the
    handle of the backup.  When the dependencies of the batch resolve
    there, the store then holds exactly one new Pending task for each
    specification, in order, with the fields of the specification, a fresh
    id and the ids its references resolve to among the new tasks, and the
    answer reports success and lists these tasks.  When a dependency does
    not resolve, nothing is created: the store holds no task, and the
    answer reports the failed creation.  [splitTasksRaw] is [splitTasks] on
    the batch its text parses into. *)
Theorem clearAllTasks_backup_first (s : TaskModel.Store) (tasks : list TaskSpec.t)
    (g : option string) :
  (sharesName tasks →
   exec taskModelHandler (splitTasks (SplitTasksArgs.mk clearAllTasks tasks g)) s
   = Run (JS.Returned
            {| Response.content :=
                 [str "tasks 參數中存在重複的任務名稱，請確保每個任務名稱是唯一的"];
               Response.isError := None;
               Response.ephemeral := None |})
       s [])
  ∧ (¬ sharesName tasks →
     TaskModel.backupWritable s = false →
     exec taskModelHandler (splitTasks (SplitTasksArgs.mk clearAllTasks tasks g)) s
     = Run (JS.Returned
              {| Response.content :=
                   [getSplitTasksPrompt clearAllTasks [] (TaskModel.tasks s)];
                 Response.isError := None;
                 Response.ephemeral :=
                   Some {| TaskCreationResult.success := false;
                           TaskCreationResult.message :=
                             "PersistenceError: the backup could not be written";
                           TaskCreationResult.backupFilePath := None |} |})
         s [Call modelClearAllTasks; Call getAllTasks])
  ∧ (∀ created : list Task.t,
       ¬ sharesName tasks →
       TaskModel.backupWritable s = true →
       TaskModel.resolution append tasks (TaskModel.cleared s) = inr created →
       exec taskModelHandler (splitTasks (SplitTasksArgs.mk clearAllTasks tasks g)) s
       = Run (JS.Returned
                {| Response.content :=
                     [getSplitTasksPrompt clearAllTasks created created];
                   Response.isError := None;
                   Response.ephemeral :=
                     Some {| TaskCreationResult.success := true;
                             TaskCreationResult.message :=
                               "all tasks were cleared" +:+ nl +:+ "成功創建了 "
                                 +:+ pretty (length created) +:+ " 個新任務。";
                             TaskCreationResult.backupFilePath :=
                               Some (TaskModel.backupHandle (TaskModel.clock s)) |} |})
           {| TaskModel.tasks := created;
              TaskModel.backups :=
                TaskModel.backups s
                ++ [(TaskModel.backupHandle (TaskModel.clock s), TaskModel.tasks s)];
              TaskModel.clock := S (S (TaskModel.clock s));
              TaskModel.nextId := TaskModel.nextId s + length tasks;
              TaskModel.backupWritable := true |}
           [Call modelClearAllTasks; Call (batchCreateOrUpdateTasks tasks append g);
            Call getAllTasks]
       ∧ length created = length tasks
       ∧ ∀ (i : nat) (spec : TaskSpec.t),
           tasks !! i = Some spec →
           ∃ task : Task.t,
             created !! i = Some task
             ∧ Task.id task = TaskModel.freshId (TaskModel.nextId s + i)
             ∧ Task.name task = TaskSpec.name spec
             ∧ Task.description task = TaskSpec.description spec
             ∧ Task.notes task = TaskSpec.notes spec
             ∧ Task.status task = PENDING
             ∧ Task.summary task = None
             ∧ Task.createdAt task = S (TaskModel.clock s)
             ∧ Task.relatedFiles task = TaskSpec.relatedFiles spec
             ∧ Task.implementationGuide task = Some (TaskSpec.implementationGuide spec)
             ∧ Task.verificationCriteria task = TaskSpec.verificationCriteria spec
             ∧ ∃ ids : list string,
                 Task.dependencies task = remove_dups ids
                 ∧ Forall2
                     (λ reference id,
                        if decide (reference ∈ Task.id <$> created)
                        then id = reference
                        else ∃ (j : nat) (named : Task.t),
                               created !! j = Some named
                               ∧ Task.name named = reference
                               ∧ Task.id named = id)
                     (default [] (TaskSpec.dependencies spec)) ids)
  ∧ (∀ failure : string * string,
       ¬ sharesName tasks →
       TaskModel.backupWritable s = true →
       TaskModel.resolution append tasks (TaskModel.cleared s) = inl failure →
       exec taskModelHandler (splitTasks (SplitTasksArgs.mk clearAllTasks tasks g)) s
       = Run (JS.Returned
                {| Response.content := [getSplitTasksPrompt clearAllTasks [] []];
                   Response.isError := None;
                   Response.ephemeral :=
                     Some {| TaskCreationResult.success := false;
                             TaskCreationResult.message :=
                               "all tasks were cleared" +:+ nl
                                 +:+ "創建新任務時發生錯誤: "
                                 +:+ JS.errorText (TaskModel.DependencyError failure);
                             TaskCreationResult.backupFilePath :=
                               Some (TaskModel.backupHandle (TaskModel.clock s)) |} |})
           {| TaskModel.tasks := [];
              TaskModel.backups :=
                TaskModel.backups s
                ++ [(TaskModel.backupHandle (TaskModel.clock s), TaskModel.tasks s)];
              TaskModel.clock := S (TaskModel.clock s);
              TaskModel.nextId := TaskModel.nextId s;
              TaskModel.backupWritable := true |}
           [Call modelClearAllTasks; Call (batchCreateOrUpdateTasks tasks append g);
            Call getAllTasks])
  ∧ (∀ (JSON : Type) (JSON_parse : string → JS.outcome JSON)
       (tasksSchema_safeParse : JSON → SafeParse (list TaskSpec.t))
       (tasksRaw : string) (parsed : JSON),
       JSON_parse tasksRaw = JS.Returned parsed →
       tasksSchema_safeParse parsed = ParseSuccess tasks →
       splitTasksRaw JSON JSON_parse tasksSchema_safeParse
         (SplitTasksRawArgs.mk clearAllTasks tasksRaw g)
       = splitTasks (SplitTasksArgs.mk clearAllTasks tasks g)).
Proof.
  split_and!.
  - intros Hshared. by apply splitTasks_duplicate, hasDuplicateName_sharesName.
  - intros Hnames%not_sharesName Hwritable. rewrite exec_splitTasks by done.
    by rewrite (exec_applyUpdateMode_clear _ _ _ _ _ _
                  (modelClearAllTasks_readOnly s Hwritable)).
  - intros created Hnames%not_sharesName Hwritable Hcreated.
    split; [| by apply (resolution_on_empty tasks (TaskModel.cleared s))].
    rewrite exec_splitTasks by done.
    rewrite (exec_applyUpdateMode_clear _ _ _ _ _ _
               (modelClearAllTasks_writable s Hwritable)).
    cbn [ClearResult.success ClearResult.message ClearResult.backupFile
         taskModelHandler].
    apply hasDuplicateName_NoDup in Hnames.
    rewrite (batchCreateOrUpdateTasks_on_empty tasks g _ created) by done.
    unfold finishSplit, splitTasksResponse; simpl. by rewrite Hwritable.
  - intros failure Hnames%not_sharesName Hwritable Hfailure.
    rewrite exec_splitTasks by done.
    rewrite (exec_applyUpdateMode_clear _ _ _ _ _ _
               (modelClearAllTasks_writable s Hwritable)).
    cbn [ClearResult.success ClearResult.message ClearResult.backupFile
         taskModelHandler].
    apply hasDuplicateName_NoDup in Hnames.
    rewrite (batchCreateOrUpdateTasks_unresolved _ _ _ _ failure) by done.
    unfold finishSplit, splitTasksResponse, TaskModel.cleared; simpl.
    by rewrite Hwritable.
  - intros JSON JSON_parse tasksSchema_safeParse tasksRaw parsed.
    apply splitTasksRaw_parsed.
Qed.

(** ** [verifyTask]: the score threshold *)

Section VerifyTask.

Context {W : Type} (h : handler W).

(** Below the threshold the lookup is the only call. *)
Lemma verifyTask_below_threshold (w w1 : W) (taskId summary : string)
    (score : JS.number) (task : Task.t) :
  h _ (getTaskById taskId) w = (JS.Returned (Some task), w1) →
  Task.status task = IN_PROGRESS →
  (score < 80)%Q →
  exec h (verifyTask (VerifyTaskArgs.mk taskId summary score)) w
  = Run (JS.Returned (verifyTaskResponse task score summary)) w1
      [Call (getTaskById taskId)].
Proof.
  intros Hlookup Hstatus Hscore. unfold verifyTask; simpl.
  rewrite Hlookup; simpl.
  destruct (decide (Task.status task ≠ IN_PROGRESS)) as [| _]; [done |].
  assert (JS.ge score 80%Q = false) as ->; [| done].
  unfold JS.ge. apply not_true_iff_false. rewrite Qle_bool_iff.
  by apply Qlt_not_le.
Qed.

(** From the threshold on, the summary is set and then the status, and the
    answer is still built from the task as it was looked up. *)
Lemma verifyTask_from_threshold (w w1 w2 w3 : W) (taskId summary : string)
    (score : JS.number) (task : Task.t) (r1 r2 : option Task.t) :
  h _ (getTaskById taskId) w = (JS.Returned (Some task), w1) →
  Task.status task = IN_PROGRESS →
  (80 <= score)%Q →
  h _ (updateTaskSummary taskId summary) w1 = (JS.Returned r1, w2) →
  h _ (updateTaskStatus taskId COMPLETED) w2 = (JS.Returned r2, w3) →
  exec h (verifyTask (VerifyTaskArgs.mk taskId summary score)) w
  = Run (JS.Returned (verifyTaskResponse task score summary)) w3
      [Call (getTaskById taskId); Call (updateTaskSummary taskId summary);
       Call (updateTaskStatus taskId COMPLETED)].
Proof.
  intros Hlookup Hstatus Hscore%Qle_bool_iff Hsummary Hcompleted.
  unfold verifyTask; simpl. rewrite Hlookup; simpl.
  destruct (decide (Task.status task ≠ IN_PROGRESS)) as [| _]; [done |].
  unfold JS.ge; rewrite Hscore; simpl.
  rewrite Hsummary; simpl. by rewrite Hcompleted.
Qed.

End VerifyTask.

(** C3.  For a task of the modelled store whose status is [IN_PROGRESS]:
    with [score >= 80], [verifyTask] sets the summary of the task and then
    its status to [COMPLETED] (the lookup and these two are its calls); with
    [score < 80] the lookup is its only call and the store, so the status
    [IN_PROGRESS] and the summary of the task, is left as it was.  In both
    cases the answer is the verification prompt. *)
Theorem verify_score_threshold (s : TaskModel.Store) (taskId summary : string)
    (score : JS.number) (task : Task.t) :
  find (TaskModel.hasId taskId) (TaskModel.tasks s) = Some task →
  Task.status task = IN_PROGRESS →
  ((80 <= score)%Q →
   ∃ (s' : TaskModel.Store) (task' : Task.t),
     exec taskModelHandler (verifyTask (VerifyTaskArgs.mk taskId summary score)) s
     = Run (JS.Returned (verifyTaskResponse task score summary)) s'
         [Call (getTaskById taskId); Call (updateTaskSummary taskId summary);
          Call (updateTaskStatus taskId COMPLETED)]
     ∧ find (TaskModel.hasId taskId) (TaskModel.tasks s') = Some task'
     ∧ Task.summary task' = Some summary
     ∧ Task.status task' = COMPLETED)
  ∧ ((score < 80)%Q →
     exec taskModelHandler (verifyTask (VerifyTaskArgs.mk taskId summary score)) s
     = Run (JS.Returned (verifyTaskResponse task score summary)) s
         [Call (getTaskById taskId)]).
Proof.
  intros Hfind Hstatus.
  assert (taskModelHandler _ (getTaskById taskId) s = (JS.Returned (Some task), s))
    as Hlookup.
  { cbn [taskModelHandler]. unfold TaskModel.getTaskById. by rewrite Hfind. }
  split; [| by apply verifyTask_below_threshold].
  intros Hscore.
  eexists _, (TaskModel.setStatus COMPLETED _ (TaskModel.setSummary summary _ task)).
  split.
  - eapply (verifyTask_from_threshold taskModelHandler s s);
      [exact Hlookup | exact Hstatus | exact Hscore | |].
    + cbn [taskModelHandler]. unfold TaskModel.updateTaskSummary.
      by rewrite Hfind.
    + cbn [taskModelHandler]. unfold TaskModel.updateTaskStatus.
      cbn [TaskModel.tasks TaskModel.withTasks].
      by rewrite find_alterTask, Hfind.
  - cbn [TaskModel.tasks TaskModel.withTasks].
    by rewrite find_alterTask, find_alterTask, Hfind.
Qed.

(** ** The claims at sample data *)

Lemma duplicate_names_rejected_witness :
  sharesName [Demo.printer; Demo.printer]
  ∧ exec taskModelHandler
      (splitTasks (SplitTasksArgs.mk clearAllTasks [Demo.printer; Demo.printer] None))
      Demo.store
    = Run (JS.Returned duplicateNameResponse) Demo.store [].
Proof.
  assert (sharesName [Demo.printer; Demo.printer]) as Hshared.
  { exists 0, 1, Demo.printer, Demo.printer. by repeat split. }
  split; [exact Hshared |].
  exact (proj1 (duplicate_names_rejected taskModelHandler Demo.store
                  clearAllTasks [Demo.printer; Demo.printer] None Hshared)).
Defined.

Lemma failed_check_leaves_store_witness :
  ¬ sharesName [Demo.printer; Demo.dangling]
  ∧ TaskModel.resolution append [Demo.printer; Demo.dangling] Demo.store
    = inl ("checker", "no such task")
  ∧ store (exec taskModelHandler
             (splitTasks
                (SplitTasksArgs.mk append [Demo.printer; Demo.dangling] None))
             Demo.store)
    = Demo.store.
Proof.
  assert (¬ sharesName [Demo.printer; Demo.dangling]) as Hnames.
  { apply not_sharesName. reflexivity. }
  assert (TaskModel.resolution append [Demo.printer; Demo.dangling] Demo.store
          = inl ("checker", "no such task")) as Hfailure.
  { reflexivity. }
  split; [exact Hnames |]. split; [exact Hfailure |].
  assert (append ≠ clearAllTasks) as Hmode; [discriminate |].
  exact (f_equal store
           (proj1 (proj2 (failed_check_leaves_store Demo.store append
                            [Demo.printer; Demo.dangling] None))
              _ Hnames Hfailure Hmode)).
Defined.

(** C1 as stated fails in [clearAllTasks] mode: the resolution of the batch
    fails, and the store is not left in its prior state. *)
Lemma failed_check_clearAllTasks_counterexample :
  ¬ sharesName [Demo.dangling]
  ∧ TaskModel.resolution clearAllTasks [Demo.dangling] Demo.store
    = inl ("checker", "printer")
  ∧ store (exec taskModelHandler
             (splitTasks (SplitTasksArgs.mk clearAllTasks [Demo.dangling] None))
             Demo.store)
    ≠ Demo.store.
Proof.
  split; [apply not_sharesName; reflexivity |]. split; [reflexivity |].
  intros Hsame. apply (f_equal TaskModel.tasks) in Hsame.
  vm_compute in Hsame. discriminate Hsame.
Qed.

Lemma clearAllTasks_backup_first_witness :
  ¬ sharesName [Demo.printer; Sample.checker]
  ∧ (TaskModel.backupWritable Demo.readOnlyBackups = false
     ∧ exec taskModelHandler
         (splitTasks
            (SplitTasksArgs.mk clearAllTasks [Demo.printer; Sample.checker] None))
         Demo.readOnlyBackups
       = Run (JS.Returned
                {| Response.content :=
                     [getSplitTasksPrompt clearAllTasks []
                        [Demo.inProgress; Demo.completed]];
                   Response.isError := None;
                   Response.ephemeral :=
                     Some {| TaskCreationResult.success := false;
                             TaskCreationResult.message :=
                               "PersistenceError: the backup could not be written";
                             TaskCreationResult.backupFilePath := None |} |})
           Demo.readOnlyBackups [Call modelClearAllTasks; Call getAllTasks])
  ∧ (TaskModel.backupWritable Demo.store = true
     ∧ TaskModel.resolution append [Demo.printer; Sample.checker]
         (TaskModel.cleared Demo.store)
       = inr [Sample.printerTask; Sample.checkerTask]
     ∧ exec taskModelHandler
         (splitTasks
            (SplitTasksArgs.mk clearAllTasks [Demo.printer; Sample.checker] None))
         Demo.store
       = Run (JS.Returned
                {| Response.content :=
                     [getSplitTasksPrompt clearAllTasks
                        [Sample.printerTask; Sample.checkerTask]
                        [Sample.printerTask; Sample.checkerTask]];
                   Response.isError := None;
                   Response.ephemeral :=
                     Some {| TaskCreationResult.success := true;
                             TaskCreationResult.message :=
                               "all tasks were cleared" +:+ nl
                                 +:+ "成功創建了 2 個新任務。";
                             TaskCreationResult.backupFilePath :=
                               Some "tasks_backup_2" |} |})
           {| TaskModel.tasks := [Sample.printerTask; Sample.checkerTask];
              TaskModel.backups :=
                [("tasks_backup_2", [Demo.inProgress; Demo.completed])];
              TaskModel.clock := 4;
              TaskModel.nextId := 4;
              TaskModel.backupWritable := true |}
           [Call modelClearAllTasks;
            Call (batchCreateOrUpdateTasks [Demo.printer; Sample.checker] append None);
            Call getAllTasks])
  ∧ sharesName [Demo.printer; Demo.printer]
  ∧ exec taskModelHandler
      (splitTasks (SplitTasksArgs.mk clearAllTasks [Demo.printer; Demo.printer] None))
      Demo.store
    = Run (JS.Returned
             {| Response.content :=
                  [str "tasks 參數中存在重複的任務名稱，請確保每個任務名稱是唯一的"];
                Response.isError := None;
                Response.ephemeral := None |})
        Demo.store [].
Proof.
  assert (¬ sharesName [Demo.printer; Sample.checker]) as Hnames.
  { apply not_sharesName. reflexivity. }
  assert (TaskModel.resolution append [Demo.printer; Sample.checker]
            (TaskModel.cleared Demo.store)
          = inr [Sample.printerTask; Sample.checkerTask]) as Hcreated.
  { reflexivity. }
  assert (sharesName [Demo.printer; Demo.printer]) as Hshared.
  { exists 0, 1, Demo.printer, Demo.printer. by repeat split. }
  split; [exact Hnames |]. split; [split; [reflexivity |] | split].
  - exact (proj1 (proj2 (clearAllTasks_backup_first Demo.readOnlyBackups
                           [Demo.printer; Sample.checker] None))
             Hnames eq_refl).
  - split; [reflexivity |]. split; [exact Hcreated |].
    exact (proj1 (proj1 (proj2 (proj2 (clearAllTasks_backup_first Demo.store
                                         [Demo.printer; Sample.checker] None)))
                    _ Hnames eq_refl Hcreated)).
  - split; [exact Hshared |].
    exact (proj1 (clearAllTasks_backup_first Demo.store
                    [Demo.printer; Demo.printer] None)
             Hshared).
Defined.

(** C2 as stated fails on two batches, with the store and the backups in
    working order.  A batch in which two specifications share a name is
    answered before any call: no snapshot is taken and no task is
    discarded.  For a batch with a dependency that names no task, the
    snapshot is taken and every task is discarded, but no submitted
    specification is created: the store holds no task, and the answer
    reports the failure. *)
Lemma clearAllTasks_backup_first_counterexample :
  TaskModel.backupWritable Demo.store = true
  ∧ (exec taskModelHandler
       (splitTasks (SplitTasksArgs.mk clearAllTasks [Demo.printer; Demo.printer] None))
       Demo.store
     = Run (JS.Returned duplicateNameResponse) Demo.store []
     ∧ TaskModel.backups Demo.store = []
     ∧ TaskModel.tasks Demo.store = [Demo.inProgress; Demo.completed])
  ∧ ¬ sharesName [Demo.dangling]
  ∧ ∃ response : Response.t,
      exec taskModelHandler
        (splitTasks (SplitTasksArgs.mk clearAllTasks [Demo.dangling] None))
        Demo.store
      = Run (JS.Returned response)
          {| TaskModel.tasks := [];
             TaskModel.backups :=
               [("tasks_backup_2", [Demo.inProgress; Demo.completed])];
             TaskModel.clock := 3;
             TaskModel.nextId := 2;
             TaskModel.backupWritable := true |}
          [Call modelClearAllTasks;
           Call (batchCreateOrUpdateTasks [Demo.dangling] append None);
           Call getAllTasks]
      ∧ Response.content response = [getSplitTasksPrompt clearAllTasks [] []]
      ∧ TaskCreationResult.success <$> Response.ephemeral response = Some false.
Proof.
  split; [reflexivity |]. split; [by split_and! |].
  split; [apply not_sharesName; reflexivity |].
  eexists. split; [reflexivity |]. by split.
Qed.

Lemma verify_score_threshold_witness :
  find (TaskModel.hasId "task-0") (TaskModel.tasks Demo.store) = Some Demo.inProgress
  ∧ Task.status Demo.inProgress = IN_PROGRESS
  ∧ (80 <= 80)%Q
  ∧ ∃ (s' : TaskModel.Store) (task' : Task.t),
      exec taskModelHandler
        (verifyTask (VerifyTaskArgs.mk "task-0" "the parser reads every input" 80%Q))
        Demo.store
      = Run (JS.Returned
               (verifyTaskResponse Demo.inProgress 80%Q "the parser reads every input"))
          s'
          [Call (getTaskById "task-0");
           Call (updateTaskSummary "task-0" "the parser reads every input");
           Call (updateTaskStatus "task-0" COMPLETED)]
      ∧ find (TaskModel.hasId "task-0") (TaskModel.tasks s') = Some task'
      ∧ Task.summary task' = Some "the parser reads every input"
      ∧ Task.status task' = COMPLETED.
Proof.
  split; [reflexivity |]. split; [reflexivity |].
  assert (80 <= 80)%Q as Hscore; [apply Qle_refl |].
  split; [exact Hscore |].
  exact (proj1 (verify_score_threshold Demo.store "task-0"
                  "the parser reads every input" 80%Q Demo.inProgress
                  eq_refl eq_refl)
           Hscore).
Defined.

Lemma verify_requires_in_progress_witness :
  taskModelHandler _ (getTaskById "task-1") Demo.store
  = (JS.Returned (Some Demo.completed), Demo.store)
  ∧ Task.status Demo.completed ≠ IN_PROGRESS
  ∧ exec taskModelHandler
      (verifyTask (VerifyTaskArgs.mk "task-1" "the lexer is done once more" 100%Q))
      Demo.store
    = Run (JS.Returned (verifyStatusErrorResponse Demo.completed)) Demo.store
        [Call (getTaskById "task-1")].
Proof.
  split; [reflexivity |].
  assert (Task.status Demo.completed ≠ IN_PROGRESS) as Hstatus; [discriminate |].
  split; [exact Hstatus |].
  exact (proj1 (verify_requires_in_progress taskModelHandler Demo.store Demo.store
                  (VerifyTaskArgs.mk "task-1" "the lexer is done once more" 100%Q)
                  Demo.completed eq_refl Hstatus)).
Defined.

Lemma unknown_task_id_reported_witness :
  taskModelHandler _ (getTaskById "task-9") Demo.store = (JS.Returned None, Demo.store)
  ∧ exec taskModelHandler
      (verifyTask (VerifyTaskArgs.mk "task-9" "nothing was done at all" 90%Q))
      Demo.store
    = Run (JS.Returned (verifyNotFoundResponse "task-9")) Demo.store
        [Call (getTaskById "task-9")].
Proof.
  split; [reflexivity |].
  exact (proj1 (unknown_task_id_reported taskModelHandler Demo.store Demo.store
                  "task-9" eq_refl)
           "nothing was done at all" 90%Q).
Defined.

(** C7 as stated fails for [updateTaskContent]: no task has the id, and the
    answer to an update that gives no field is the empty-update prompt, not
    the not-found answer. *)
Lemma unknown_task_id_counterexample :
  find (TaskModel.hasId "task-9") (TaskModel.tasks Demo.store) = None
  ∧ result (exec taskModelHandler
              (updateTaskContent
                 (UpdateTaskContentArgs.mk "task-9" None None None None None None None))
              Demo.store)
    = JS.Returned (emptyUpdateResponse "task-9")
  ∧ emptyUpdateResponse "task-9" ≠ updateNotFoundResponse "task-9".
Proof.
  split; [reflexivity |]. split; [reflexivity | discriminate].
Qed.

Lemma query_pagination_witness :
  (∃ (isId : bool) (page pageSize : JS.number),
     QueryTaskArgs.mk "parser" (Some false) (Some 2%Q) (Some 20%Q)
     = QueryTaskArgs.mk "parser" (Some isId) (Some page) (Some pageSize)
     ∧ JS.isInteger page = true ∧ (1 <= page)%Q
     ∧ JS.isInteger pageSize = true ∧ (1 <= pageSize)%Q ∧ (pageSize <= 20)%Q
     ∧ ∀ (W : Type) (h : handler W) (w w' : W) (results : SearchResult.t),
         h _ (searchTasksWithCommand "parser" isId page pageSize) w
         = (JS.Returned results, w') →
         result (exec h (queryTask
                           (QueryTaskArgs.mk "parser" (Some false) (Some 2%Q)
                              (Some 20%Q))) w)
         = JS.Returned
             {| Response.content :=
                  [getQueryTaskPrompt
                     {| QueryTaskPromptParams.query := "parser";
                        QueryTaskPromptParams.isId := isId;
                        QueryTaskPromptParams.tasks := SearchResult.tasks results;
                        QueryTaskPromptParams.totalTasks :=
                          Pagination.totalResults (SearchResult.pagination results);
                        QueryTaskPromptParams.page :=
                          Pagination.currentPage (SearchResult.pagination results);
                        QueryTaskPromptParams.pageSize := pageSize;
                        QueryTaskPromptParams.totalPages :=
                          Pagination.totalPages (SearchResult.pagination results) |}];
                Response.isError := None;
                Response.ephemeral := None |})
  ∧ queryTaskSchema (QueryTaskArgs.mk "parser" None (Some 0%Q) None) = None
  ∧ queryTaskSchema (QueryTaskArgs.mk "parser" None None (Some 21%Q)) = None
  ∧ queryTaskSchema (QueryTaskArgs.mk "parser" None None (Some (3 # 2)%Q)) = None.
Proof.
  split_and!.
  - exact (proj1 (query_pagination
                    (QueryTaskArgs.mk "parser" None (Some 2%Q) (Some 20%Q)))
             (QueryTaskArgs.mk "parser" (Some false) (Some 2%Q) (Some 20%Q))
             eq_refl).
  - apply (proj1 (proj2 (query_pagination
                           (QueryTaskArgs.mk "parser" None (Some 0%Q) None)))
             0%Q eq_refl).
    intros [_ Hge]. by apply Qle_bool_iff in Hge.
  - apply (proj2 (proj2 (query_pagination
                           (QueryTaskArgs.mk "parser" None None (Some 21%Q))))
             21%Q eq_refl).
    intros (_ & _ & Hle). by apply Qle_bool_iff in Hle.
  - apply (proj2 (proj2 (query_pagination
                           (QueryTaskArgs.mk "parser" None None (Some (3 # 2)%Q))))
             (3 # 2)%Q eq_refl).
    by intros [Hint _].
Defined.

Lemma line_range_checked_before_lookup_witness :
  updateTaskContentSchema
    (UpdateTaskContentArgs.mk "task-9" None None None
       (Some [Demo.backwardsRange]) None None None) = true
  ∧ malformedPair Demo.backwardsRange
  ∧ find (TaskModel.hasId "task-9") (TaskModel.tasks Demo.store) = None
  ∧ exec taskModelHandler
      (updateTaskContent
         (UpdateTaskContentArgs.mk "task-9" None None None
            (Some [Demo.backwardsRange]) None None None))
      Demo.store
    = Run (JS.Returned (lineRangeErrorResponse "task-9")) Demo.store [].
Proof.
  split; [reflexivity |].
  assert (malformedPair Demo.backwardsRange) as Hbad; [reflexivity |].
  split; [exact Hbad |]. split; [reflexivity |].
  apply (line_range_checked_before_lookup taskModelHandler Demo.store
           (UpdateTaskContentArgs.mk "task-9" None None None
              (Some [Demo.backwardsRange]) None None None)
           [Demo.backwardsRange] Demo.backwardsRange eq_refl eq_refl);
    [apply list_elem_of_here | exact Hbad].
Defined.

(** ** The pair invariant of a related file *)

(** C5, where the code keeps it: [updateTaskContent] rejects exactly the
    related files (line numbers as the schema admits them) that break the
    pair invariant. *)
Lemma updateTaskContent_enforces_pair_invariant (files : list RelatedFile.t) :
  forallb updateTaskContentSchema_relatedFile files = true →
  hasInvalidLineRange (Some files) = true ↔ ∃ file, file ∈ files ∧ malformedPair file.
Proof.
  intros Hschema. simpl. rewrite existsb_exists.
  rewrite forallb_forall in Hschema.
  split; intros (file & Hin & Hbad); exists file.
  - split; [by apply list_elem_of_In |].
    specialize (Hschema file Hin).
    apply andb_true_iff in Hschema as [[_ Hstart]%andb_true_iff Hend].
    by apply invalidLineRange_malformedPair.
  - apply list_elem_of_In in Hin. split; [done |].
    specialize (Hschema file Hin).
    apply andb_true_iff in Hschema as [[_ Hstart]%andb_true_iff Hend].
    by apply invalidLineRange_malformedPair.
Qed.

(** C5, where the code breaks it: a batch whose related file has
    [lineStart = 5] and no [lineEnd] passes the schema of [splitTasks]; the
    tool hands the file on as it is in its creating call, whatever the task
    model does, and on the modelled store the task is created with it.  The
    check of [updateTaskContent] rejects the same file. *)
Example half_range_passes_splitTasks :
  malformedPair Demo.halfRange
  ∧ splitTasksSchema (SplitTasksArgs.mk append [Demo.withHalfRange] None) = true
  ∧ (∀ (W : Type) (h : handler W) (w : W),
       head (calls (exec h (splitTasks
                              (SplitTasksArgs.mk append [Demo.withHalfRange] None)) w))
       = Some (Call (batchCreateOrUpdateTasks [Demo.withHalfRange] append None)))
  ∧ (∃ (created : Task.t) (response : Response.t),
       exec taskModelHandler
         (splitTasks (SplitTasksArgs.mk append [Demo.withHalfRange] None)) Demo.store
       = Run (JS.Returned response)
           {| TaskModel.tasks := [Demo.inProgress; Demo.completed; created];
              TaskModel.backups := [];
              TaskModel.clock := 3;
              TaskModel.nextId := 3;
              TaskModel.backupWritable := true |}
           [Call (batchCreateOrUpdateTasks [Demo.withHalfRange] append None);
            Call getAllTasks]
       ∧ Task.relatedFiles created = Some [Demo.halfRange]
       ∧ (TaskCreationResult.success <$> Response.ephemeral response) = Some true)
  ∧ hasInvalidLineRange (Some [Demo.halfRange]) = true.
Proof.
  split_and!; [done | done | | | done].
  - intros W h w.
    rewrite exec_splitTasks, exec_applyUpdateMode_direct by done.
    destruct (h _ (batchCreateOrUpdateTasks [Demo.withHalfRange] append None) w)
      as [[createdTasks | error] w1]; unfold finishSplit; simpl;
      by destruct (h _ getAllTasks w1).
  - by eexists _, _.
Qed.

(** * Further properties of the tools *)

(** ** [splitTasks] and [splitTasksRaw] *)

Lemma orElse_answers {A W : Type} (r : run A W) (k : JS.thrown → W → run A W) :
  (∀ error w, ∃ a, result (k error w) = JS.Returned a) →
  ∃ a, result (orElse r k) = JS.Returned a.
Proof.
  intros Hk. unfold orElse. destruct r as [[a | error] w log]; simpl.
  - by exists a.
  - apply Hk.
Qed.

Lemma splitTasks_answers {W : Type} (h : handler W) (w : W) (args : SplitTasksArgs.t) :
  ∃ response, result (exec h (splitTasks args) w) = JS.Returned response.
Proof.
  unfold splitTasks. rewrite exec_try_catch. apply orElse_answers.
  intros error w'. by eexists.
Qed.

(** [splitTasks] and [splitTasksRaw] never reject: whatever the task model
    does, and for [splitTasksRaw] whatever the text is, the promise
    resolves to an answer. *)
Theorem splitTasks_never_rejects {W JSON : Type} (h : handler W) (w : W)
    (JSON_parse : string → JS.outcome JSON)
    (tasksSchema_safeParse : JSON → SafeParse (list TaskSpec.t))
    (args : SplitTasksArgs.t) (argsRaw : SplitTasksRawArgs.t) :
  (∃ response, result (exec h (splitTasks args) w) = JS.Returned response)
  ∧ (∃ response,
       result (exec h (splitTasksRaw JSON JSON_parse tasksSchema_safeParse argsRaw) w)
       = JS.Returned response).
Proof.
  split; [apply splitTasks_answers |].
  unfold splitTasksRaw.
  destruct (JSON_parse _) as [parsed | error]; [| by eexists].
  destruct (tasksSchema_safeParse parsed) as [tasks | message]; [| by eexists].
  apply splitTasks_answers.
Qed.

(** The answer is the duplicate-name message exactly when two
    specifications of the batch share a name: the check rejects no batch
    of distinct names, whatever the task model does. *)
Theorem duplicate_answer_iff_shared_name {W : Type} (h : handler W) (w : W)
    (updateMode : UpdateMode) (tasks : list TaskSpec.t) (g : option string) :
  result (exec h (splitTasks (SplitTasksArgs.mk updateMode tasks g)) w)
  = JS.Returned duplicateNameResponse
  ↔ sharesName tasks.
Proof.
  split.
  - intros Hanswer. apply hasDuplicateName_sharesName.
    destruct (hasDuplicateName tasks ∅) eqn:Hdup; [done |]. exfalso.
    rewrite exec_splitTasks in Hanswer by done. unfold finishSplit in Hanswer.
    destruct (exec h (applyUpdateMode updateMode tasks g) w)
      as [[locals | error] w1 log]; simpl in Hanswer.
    + by destruct (h _ getAllTasks w1).
    + discriminate Hanswer.
  - intros Hshared%hasDuplicateName_sharesName.
    by rewrite splitTasks_duplicate.
Qed.

(** In the modes other than [clearAllTasks], whatever the task model does,
    a batch of distinct names leads to exactly one creating call, with the
    submitted tasks as they are and the mode as given, and then one read of
    all tasks; nothing is cleared.  The answer has no backup path, and it
    reports success exactly when the creating call returned. *)
Theorem other_modes_one_creating_call {W : Type} (h : handler W) (w : W)
    (updateMode : UpdateMode) (tasks : list TaskSpec.t) (g : option string) :
  updateMode ≠ clearAllTasks →
  ¬ sharesName tasks →
  ∃ response : Response.t,
    result (exec h (splitTasks (SplitTasksArgs.mk updateMode tasks g)) w)
    = JS.Returned response
    ∧ calls (exec h (splitTasks (SplitTasksArgs.mk updateMode tasks g)) w)
      = [Call (batchCreateOrUpdateTasks tasks updateMode g); Call getAllTasks]
    ∧ TaskCreationResult.backupFilePath <$> Response.ephemeral response = Some None
    ∧ (TaskCreationResult.success <$> Response.ephemeral response = Some true
       ↔ ∃ createdTasks,
           (h _ (batchCreateOrUpdateTasks tasks updateMode g) w).1
           = JS.Returned createdTasks).
Proof.
  intros Hmode Hnames%not_sharesName.
  rewrite exec_splitTasks, exec_applyUpdateMode_direct by done.
  destruct (h _ (batchCreateOrUpdateTasks tasks updateMode g) w)
    as [[createdTasks | error] w1]; unfold finishSplit; simpl;
    destruct (h _ getAllTasks w1) as [o w2]; simpl;
    eexists; (split; [reflexivity |]); (split; [reflexivity |]);
    (split; [reflexivity |]); simpl.
  - split; [by eexists | done].
  - split; [done | by intros [? ?]].
Qed.

(** In [clearAllTasks] mode, when the clearing call returns, the creating
    call is made exactly when the clearing reported success, and then in
    [append] mode with the submitted tasks.  The backup path of the answer
    is the one the clearing returned when it reported success and is absent
    otherwise, and the answer reports success exactly when the clearing
    reported success and the creating call returned. *)
Theorem clearAllTasks_creates_after_clear {W : Type} (h : handler W) (w w1 : W)
    (tasks : list TaskSpec.t) (g : option string) (clearResult : ClearResult.t) :
  ¬ sharesName tasks →
  h _ modelClearAllTasks w = (JS.Returned clearResult, w1) →
  ∃ response : Response.t,
    result (exec h (splitTasks (SplitTasksArgs.mk clearAllTasks tasks g)) w)
    = JS.Returned response
    ∧ calls (exec h (splitTasks (SplitTasksArgs.mk clearAllTasks tasks g)) w)
      = (if ClearResult.success clearResult
         then [Call modelClearAllTasks;
               Call (batchCreateOrUpdateTasks tasks append g); Call getAllTasks]
         else [Call modelClearAllTasks; Call getAllTasks])
    ∧ TaskCreationResult.backupFilePath <$> Response.ephemeral response
      = Some (if ClearResult.success clearResult
              then ClearResult.backupFile clearResult else None)
    ∧ (TaskCreationResult.success <$> Response.ephemeral response = Some true
       ↔ ClearResult.success clearResult = true
         ∧ ∃ createdTasks,
             (h _ (batchCreateOrUpdateTasks tasks append g) w1).1
             = JS.Returned createdTasks).
Proof.
  intros Hnames%not_sharesName Hclear.
  rewrite exec_splitTasks by done.
  rewrite (exec_applyUpdateMode_clear h w w1 tasks g clearResult Hclear).
  destruct (ClearResult.success clearResult).
  - destruct (h _ (batchCreateOrUpdateTasks tasks append g) w1)
      as [[createdTasks | error] w2]; unfold finishSplit; simpl;
      destruct (h _ getAllTasks w2) as [o w3]; simpl;
      eexists; (split; [reflexivity |]); (split; [reflexivity |]);
      (split; [reflexivity |]); simpl.
    + split; [by eauto | done].
    + split; [done | by intros [_ [? ?]]].
  - unfold finishSplit; simpl. destruct (h _ getAllTasks w1) as [o w2]; simpl.
    eexists. split; [reflexivity |]. split; [reflexivity |].
    split; [reflexivity |]. simpl. split; [done | by intros [? _]].
Qed.

(** When the read of all tasks is rejected after a creating call that
    returned, in the modes other than [clearAllTasks] as after a clearing
    that succeeded, the answer still reports success, and it lists the
    created tasks in the place of all tasks. *)
Theorem getAllTasks_failure_falls_back {W : Type} (h : handler W)
    (tasks : list TaskSpec.t) (g : option string)
    (createdTasks : list Task.t) (error : JS.thrown) :
  ¬ sharesName tasks →
  (∀ (updateMode : UpdateMode) (w w1 w2 : W),
     updateMode ≠ clearAllTasks →
     h _ (batchCreateOrUpdateTasks tasks updateMode g) w
     = (JS.Returned createdTasks, w1) →
     h _ getAllTasks w1 = (JS.Threw error, w2) →
     exec h (splitTasks (SplitTasksArgs.mk updateMode tasks g)) w
     = Run (JS.Returned
              {| Response.content :=
                   [getSplitTasksPrompt updateMode createdTasks createdTasks];
                 Response.isError := None;
                 Response.ephemeral :=
                   Some {| TaskCreationResult.success := true;
                           TaskCreationResult.message :=
                             successMessage updateMode createdTasks;
                           TaskCreationResult.backupFilePath := None |} |})
         w2 [Call (batchCreateOrUpdateTasks tasks updateMode g); Call getAllTasks])
  ∧ (∀ (w w1 w2 w3 : W) (clearResult : ClearResult.t),
       h _ modelClearAllTasks w = (JS.Returned clearResult, w1) →
       ClearResult.success clearResult = true →
       h _ (batchCreateOrUpdateTasks tasks append g) w1
       = (JS.Returned createdTasks, w2) →
       h _ getAllTasks w2 = (JS.Threw error, w3) →
       exec h (splitTasks (SplitTasksArgs.mk clearAllTasks tasks g)) w
       = Run (JS.Returned
                {| Response.content :=
                     [getSplitTasksPrompt clearAllTasks createdTasks createdTasks];
                   Response.isError := None;
                   Response.ephemeral :=
                     Some {| TaskCreationResult.success := true;
                             TaskCreationResult.message :=
                               ClearResult.message clearResult +:+ nl
                                 +:+ "成功創建了 "
                                 +:+ pretty (length createdTasks) +:+ " 個新任務。";
                             TaskCreationResult.backupFilePath :=
                               ClearResult.backupFile clearResult |} |})
           w3
           [Call modelClearAllTasks; Call (batchCreateOrUpdateTasks tasks append g);
            Call getAllTasks]).
Proof.
  intros Hnames%not_sharesName. split.
  - intros updateMode w w1 w2 Hmode Hcreate Hread.
    rewrite exec_splitTasks, exec_applyUpdateMode_direct by done.
    rewrite Hcreate. unfold finishSplit; simpl. by rewrite Hread.
  - intros w w1 w2 w3 clearResult Hclear Hsuccess Hcreate Hread.
    rewrite exec_splitTasks by done.
    rewrite (exec_applyUpdateMode_clear h w w1 tasks g clearResult Hclear).
    rewrite Hsuccess, Hcreate. unfold finishSplit; simpl. by rewrite Hread.
Qed.

(** When the clearing call itself is rejected, [splitTasks] answers with
    its general error message, which carries the text of the error; it makes
    no creating call and no read, and its answer has no creation result. *)
Theorem clear_rejection_is_answered {W : Type} (h : handler W) (w w1 : W)
    (tasks : list TaskSpec.t) (g : option string) (error : JS.thrown) :
  ¬ sharesName tasks →
  h _ modelClearAllTasks w = (JS.Threw error, w1) →
  exec h (splitTasks (SplitTasksArgs.mk clearAllTasks tasks g)) w
  = Run (JS.Returned (splitTasksErrorResponse error)) w1 [Call modelClearAllTasks].
Proof.
  intros Hnames%not_sharesName Hclear.
  rewrite exec_splitTasks by done. unfold applyUpdateMode.
  destruct (decide (clearAllTasks = clearAllTasks)) as [_ |]; [| done].
  by rewrite exec_bind, exec_await, Hclear.
Qed.

(** A text that [JSON.parse] rejects, or whose parsed value the schema
    rejects, is answered with the message of the failure and without any
    call of the task model, in every mode: nothing is backed up, cleared or
    created. *)
Theorem splitTasksRaw_bad_text_makes_no_call {W JSON : Type} (h : handler W) (w : W)
    (JSON_parse : string → JS.outcome JSON)
    (tasksSchema_safeParse : JSON → SafeParse (list TaskSpec.t))
    (updateMode : UpdateMode) (tasksRaw : string) (g : option string) :
  (∀ error : JS.thrown,
     JSON_parse tasksRaw = JS.Threw error →
     ∃ prefix : string,
       exec h (splitTasksRaw JSON JSON_parse tasksSchema_safeParse
                 (SplitTasksRawArgs.mk updateMode tasksRaw g)) w
       = Run (JS.Returned
                (Response.mk [str (prefix +:+ JS.errorText error)] None None))
           w [])
  ∧ (∀ (parsed : JSON) (message : string),
       JSON_parse tasksRaw = JS.Returned parsed →
       tasksSchema_safeParse parsed = ParseFailure message →
       ∃ prefix : string,
         exec h (splitTasksRaw JSON JSON_parse tasksSchema_safeParse
                   (SplitTasksRawArgs.mk updateMode tasksRaw g)) w
         = Run (JS.Returned (Response.mk [str (prefix +:+ message)] None None)) w []).
Proof.
  split.
  - intros error Hparse. unfold splitTasksRaw; simpl. rewrite Hparse.
    by eexists.
  - intros parsed message Hparse Hschema. unfold splitTasksRaw; simpl.
    rewrite Hparse, Hschema. by eexists.
Qed.

(** ** [updateTaskContent] *)

(** [updateTaskContent] answers with the empty-update prompt, without a
    call, exactly when every string field is absent or the empty string and
    neither [dependencies] nor [relatedFiles] is given: an empty string does
    not count as an update, an empty array does. *)
Theorem empty_update_iff_all_blank {W : Type} (h : handler W) (w : W)
    (args : UpdateTaskContentArgs.t) :
  exec h (updateTaskContent args) w
  = Run (JS.Returned (emptyUpdateResponse (UpdateTaskContentArgs.taskId args))) w []
  ↔ blank (UpdateTaskContentArgs.name args)
    ∧ blank (UpdateTaskContentArgs.description args)
    ∧ blank (UpdateTaskContentArgs.notes args)
    ∧ blank (UpdateTaskContentArgs.implementationGuide args)
    ∧ blank (UpdateTaskContentArgs.verificationCriteria args)
    ∧ UpdateTaskContentArgs.dependencies args = None
    ∧ UpdateTaskContentArgs.relatedFiles args = None.
Proof.
  rewrite <- isEmptyUpdate_blank. split.
  - intros Hrun.
    destruct (hasInvalidLineRange (UpdateTaskContentArgs.relatedFiles args)) eqn:Hbad.
    { rewrite updateTaskContent_invalid in Hrun by done. discriminate Hrun. }
    destruct (isEmptyUpdate args) eqn:Hempty; [done |]. exfalso.
    apply (f_equal calls) in Hrun. unfold updateTaskContent in Hrun.
    rewrite Hbad, Hempty, exec_bind, exec_await in Hrun.
    unfold andThen in Hrun.
    destruct (h _ (getTaskById (UpdateTaskContentArgs.taskId args)) w)
      as [[task | error] w1]; discriminate Hrun.
  - intros Hempty. apply updateTaskContent_empty; [| done].
    apply isEmptyUpdate_blank in Hempty as (_ & _ & _ & _ & _ & _ & ->). done.
Qed.

Lemma exec_updateTaskContent_lookup {W : Type} (h : handler W) (w : W)
    (args : UpdateTaskContentArgs.t) :
  hasInvalidLineRange (UpdateTaskContentArgs.relatedFiles args) = false →
  isEmptyUpdate args = false →
  exec h (updateTaskContent args) w
  = let taskId := UpdateTaskContentArgs.taskId args in
    let '(o, w1) := h _ (getTaskById taskId) w in
    match o with
    | JS.Threw error => Run (JS.Threw error) w1 [Call (getTaskById taskId)]
    | JS.Returned None =>
        Run (JS.Returned (updateNotFoundResponse taskId)) w1 [Call (getTaskById taskId)]
    | JS.Returned (Some task) =>
        let '(o2, w2) := h _ (modelUpdateTaskContent taskId (updatesOf args)) w1 in
        Run match o2 with
            | JS.Threw error => JS.Threw error
            | JS.Returned updated =>
                JS.Returned
                  {| Response.content :=
                       [getUpdateTaskContentPrompt
                          {| UpdateTaskContentPromptParams.taskId := taskId;
                             UpdateTaskContentPromptParams.task := Some task;
                             UpdateTaskContentPromptParams.success :=
                               Some (UpdateResult.success updated);
                             UpdateTaskContentPromptParams.message :=
                               Some (UpdateResult.message updated);
                             UpdateTaskContentPromptParams.validationError := None;
                             UpdateTaskContentPromptParams.emptyUpdate := None;
                             UpdateTaskContentPromptParams.updatedTask :=
                               UpdateResult.task updated |}];
                     Response.isError := Some (negb (UpdateResult.success updated));
                     Response.ephemeral := None |}
            end
          w2 [Call (getTaskById taskId);
              Call (modelUpdateTaskContent taskId (updatesOf args))]
    end.
Proof.
  intros Hfine Hgiven. unfold updateTaskContent. rewrite Hfine, Hgiven.
  cbv zeta. rewrite exec_bind, exec_await. unfold andThen.
  destruct (h _ (getTaskById (UpdateTaskContentArgs.taskId args)) w)
    as [[[task |] | error] w1]; cbn [result store calls fst snd]; [| done | done].
  rewrite exec_bind, exec_await. unfold andThen, updatesOf.
  by destruct (h _ (modelUpdateTaskContent _ _) w1) as [[updated | error] w2].
Qed.

(** For arguments the schema admits, [updateTaskContent] answers with the
    line-range validation prompt exactly when some related file breaks the
    pair invariant, whatever the task model does: a list of well-formed
    files is never rejected, equal start and end lines included. *)
Theorem line_range_answer_iff_malformed {W : Type} (h : handler W) (w : W)
    (args : UpdateTaskContentArgs.t) :
  updateTaskContentSchema args = true →
  result (exec h (updateTaskContent args) w)
  = JS.Returned (lineRangeErrorResponse (UpdateTaskContentArgs.taskId args))
  ↔ ∃ (files : list RelatedFile.t) (file : RelatedFile.t),
      UpdateTaskContentArgs.relatedFiles args = Some files
      ∧ file ∈ files ∧ malformedPair file.
Proof.
  intros Hschema. unfold updateTaskContentSchema in Hschema.
  assert (hasInvalidLineRange (UpdateTaskContentArgs.relatedFiles args) = true
          ↔ ∃ files file,
              UpdateTaskContentArgs.relatedFiles args = Some files
              ∧ file ∈ files ∧ malformedPair file) as Hcheck.
  { destruct (UpdateTaskContentArgs.relatedFiles args) as [files |].
    - rewrite (updateTaskContent_enforces_pair_invariant files Hschema).
      split; [intros (file & Hin & Hbad); by exists files, file |].
      intros (files' & file & [= <-] & Hin & Hbad). by exists file.
    - split; [done | by intros (? & ? & ? & _)]. }
  rewrite <- Hcheck. split.
  - intros Hanswer.
    destruct (hasInvalidLineRange _) eqn:Hbad; [done |]. exfalso.
    destruct (isEmptyUpdate args) eqn:Hempty.
    { rewrite updateTaskContent_empty in Hanswer by done. discriminate Hanswer. }
    rewrite exec_updateTaskContent_lookup in Hanswer by done. cbv zeta in Hanswer.
    destruct (h _ (getTaskById (UpdateTaskContentArgs.taskId args)) w)
      as [[[task |] | error] w1]; [| discriminate Hanswer..].
    by destruct (h _ (modelUpdateTaskContent _ _) w1) as [[updated | error] w2].
  - intros Hbad. by rewrite updateTaskContent_invalid.
Qed.

(** For a task that the lookup finds, whatever its status, the tool hands
    exactly the given fields to the task model in one update call.  Its
    answer shows the task as it was looked up, before the update, and is
    flagged [isError] exactly when the task model reports a failure. *)
Theorem found_task_update_is_forwarded {W : Type} (h : handler W) (w w1 w2 : W)
    (args : UpdateTaskContentArgs.t) (task : Task.t) (updated : UpdateResult.t) :
  hasInvalidLineRange (UpdateTaskContentArgs.relatedFiles args) = false →
  isEmptyUpdate args = false →
  h _ (getTaskById (UpdateTaskContentArgs.taskId args)) w = (JS.Returned (Some task), w1) →
  h _ (modelUpdateTaskContent (UpdateTaskContentArgs.taskId args) (updatesOf args)) w1
  = (JS.Returned updated, w2) →
  ∃ response : Response.t,
    exec h (updateTaskContent args) w
    = Run (JS.Returned response) w2
        [Call (getTaskById (UpdateTaskContentArgs.taskId args));
         Call (modelUpdateTaskContent (UpdateTaskContentArgs.taskId args)
                 (updatesOf args))]
    ∧ (Response.isError response = Some true ↔ UpdateResult.success updated = false)
    ∧ ∃ params : UpdateTaskContentPromptParams.t,
        Response.content response = [getUpdateTaskContentPrompt params]
        ∧ UpdateTaskContentPromptParams.task params = Some task
        ∧ UpdateTaskContentPromptParams.updatedTask params = UpdateResult.task updated.
Proof.
  intros Hfine Hgiven Hlookup Hupdate.
  rewrite exec_updateTaskContent_lookup by done. cbv zeta.
  rewrite Hlookup, Hupdate.
  eexists. split; [reflexivity |]. cbn [Response.isError Response.content]. split.
  - destruct (UpdateResult.success updated); simpl; split; congruence.
  - by eexists.
Qed.

(** [verifyTask] and [updateTaskContent] do not catch: when the lookup is
    rejected, or the update call of [updateTaskContent] is, the tool is
    rejected with the same error, and it makes no further call. *)
Theorem model_rejection_propagates {W : Type} (h : handler W) (w w1 : W)
    (taskId : string) (error : JS.thrown) :
  (h _ (getTaskById taskId) w = (JS.Threw error, w1) →
   ∀ (summary : string) (score : JS.number),
     exec h (verifyTask (VerifyTaskArgs.mk taskId summary score)) w
     = Run (JS.Threw error) w1 [Call (getTaskById taskId)])
  ∧ (h _ (getTaskById taskId) w = (JS.Threw error, w1) →
     ∀ args : UpdateTaskContentArgs.t,
       UpdateTaskContentArgs.taskId args = taskId →
       hasInvalidLineRange (UpdateTaskContentArgs.relatedFiles args) = false →
       isEmptyUpdate args = false →
       exec h (updateTaskContent args) w
       = Run (JS.Threw error) w1 [Call (getTaskById taskId)])
  ∧ (∀ (args : UpdateTaskContentArgs.t) (task : Task.t) (w2 : W),
       UpdateTaskContentArgs.taskId args = taskId →
       hasInvalidLineRange (UpdateTaskContentArgs.relatedFiles args) = false →
       isEmptyUpdate args = false →
       h _ (getTaskById taskId) w = (JS.Returned (Some task), w1) →
       h _ (modelUpdateTaskContent taskId (updatesOf args)) w1 = (JS.Threw error, w2) →
       exec h (updateTaskContent args) w
       = Run (JS.Threw error) w2
           [Call (getTaskById taskId);
            Call (modelUpdateTaskContent taskId (updatesOf args))]).
Proof.
  split_and!.
  - intros Hlookup summary score. unfold verifyTask; simpl. by rewrite Hlookup.
  - intros Hlookup args <- Hfine Hgiven.
    rewrite exec_updateTaskContent_lookup by done. cbv zeta. by rewrite Hlookup.
  - intros args task w2 <- Hfine Hgiven Hlookup Hupdate.
    rewrite exec_updateTaskContent_lookup by done. cbv zeta.
    by rewrite Hlookup, Hupdate.
Qed.

(** ** [verifyTask] *)

(** Below the threshold [verifyTask] only reads: with [score < 80] its one
    call is the lookup, whatever the lookup gives (no task, a task of any
    status, or a rejection) and whatever the task model does. *)
Theorem verify_below_threshold_only_reads {W : Type} (h : handler W) (w : W)
    (taskId summary : string) (score : JS.number) :
  (score < 80)%Q →
  calls (exec h (verifyTask (VerifyTaskArgs.mk taskId summary score)) w)
  = [Call (getTaskById taskId)].
Proof.
  intros Hscore.
  assert (JS.ge score 80%Q = false) as Hbelow.
  { unfold JS.ge. apply not_true_iff_false. rewrite Qle_bool_iff.
    by apply Qlt_not_le. }
  unfold verifyTask; simpl.
  destruct (h _ (getTaskById taskId) w) as [[[task |] | error] w1]; simpl;
    [| done | done].
  destruct (decide (Task.status task ≠ IN_PROGRESS)); [done |].
  by rewrite Hbelow.
Qed.

(** The completion of a task is two writes, the summary first.  When the
    write of the summary is rejected, [verifyTask] is rejected and the
    status is never written.  When the summary is written and the write of
    the status is rejected, [verifyTask] is rejected after both calls: the
    summary write is not undone. *)
Theorem completion_is_two_writes {W : Type} (h : handler W) (w w1 : W)
    (taskId summary : string) (score : JS.number) (task : Task.t) :
  h _ (getTaskById taskId) w = (JS.Returned (Some task), w1) →
  Task.status task = IN_PROGRESS →
  (80 <= score)%Q →
  (∀ (error : JS.thrown) (w2 : W),
     h _ (updateTaskSummary taskId summary) w1 = (JS.Threw error, w2) →
     exec h (verifyTask (VerifyTaskArgs.mk taskId summary score)) w
     = Run (JS.Threw error) w2
         [Call (getTaskById taskId); Call (updateTaskSummary taskId summary)])
  ∧ (∀ (r1 : option Task.t) (error : JS.thrown) (w2 w3 : W),
       h _ (updateTaskSummary taskId summary) w1 = (JS.Returned r1, w2) →
       h _ (updateTaskStatus taskId COMPLETED) w2 = (JS.Threw error, w3) →
       exec h (verifyTask (VerifyTaskArgs.mk taskId summary score)) w
       = Run (JS.Threw error) w3
           [Call (getTaskById taskId); Call (updateTaskSummary taskId summary);
            Call (updateTaskStatus taskId COMPLETED)]).
Proof.
  intros Hlookup Hstatus Hscore%Qle_bool_iff.
  split.
  - intros error w2 Hsummary. unfold verifyTask; simpl. rewrite Hlookup; simpl.
    destruct (decide (Task.status task ≠ IN_PROGRESS)) as [| _]; [done |].
    unfold JS.ge; rewrite Hscore; simpl. by rewrite Hsummary.
  - intros r1 error w2 w3 Hsummary Hcompleted. unfold verifyTask; simpl.
    rewrite Hlookup; simpl.
    destruct (decide (Task.status task ≠ IN_PROGRESS)) as [| _]; [done |].
    unfold JS.ge; rewrite Hscore; simpl. rewrite Hsummary; simpl.
    by rewrite Hcompleted.
Qed.

(** ** [queryTask] and its schema *)

(** [queryTask] makes exactly one call, the search, and never rejects: a
    search that is rejected is answered with the error message, flagged
    [isError], and a search that returns with the query prompt. *)
Theorem queryTask_always_answers {W : Type} (h : handler W) (w : W)
    (args : QueryTaskArgs.t) :
  ∃ response : Response.t,
    exec h (queryTask args) w
    = Run (JS.Returned response)
        (h _ (searchTasksWithCommand (QueryTaskArgs.query args)
                (default false (QueryTaskArgs.isId args))
                (default 1%Q (QueryTaskArgs.page args))
                (default 3%Q (QueryTaskArgs.pageSize args))) w).2
        [Call (searchTasksWithCommand (QueryTaskArgs.query args)
                 (default false (QueryTaskArgs.isId args))
                 (default 1%Q (QueryTaskArgs.page args))
                 (default 3%Q (QueryTaskArgs.pageSize args)))]
    ∧ match (h _ (searchTasksWithCommand (QueryTaskArgs.query args)
                    (default false (QueryTaskArgs.isId args))
                    (default 1%Q (QueryTaskArgs.page args))
                    (default 3%Q (QueryTaskArgs.pageSize args))) w).1 with
      | JS.Returned results =>
          response
          = queryTaskResponse (QueryTaskArgs.query args)
              (default false (QueryTaskArgs.isId args))
              (default 3%Q (QueryTaskArgs.pageSize args)) results
      | JS.Threw error => response = queryTaskErrorResponse error
      end.
Proof.
  unfold queryTask; simpl.
  by destruct (h _ (searchTasksWithCommand _ _ _ _) w) as [[results | error] w1];
    eexists.
Qed.

(** On an input the schema admits, the search is called with the defaults
    of the schema: page 1 and page size 5 where none is given.  The page
    size 3 of the parameter list of [queryTask] is never used then. *)
Theorem admitted_query_uses_schema_defaults {W : Type} (h : handler W) (w : W)
    (input args : QueryTaskArgs.t) :
  queryTaskSchema input = Some args →
  calls (exec h (queryTask args) w)
  = [Call (searchTasksWithCommand (QueryTaskArgs.query input)
             (default false (QueryTaskArgs.isId input))
             (default 1%Q (QueryTaskArgs.page input))
             (default 5%Q (QueryTaskArgs.pageSize input)))].
Proof.
  unfold queryTaskSchema. destruct (_ && _ && _); [| done]. intros [= <-].
  unfold queryTask; simpl.
  by destruct (h _ (searchTasksWithCommand _ _ _ _) w) as [[results | error] w1].
Qed.

(** What the schema hands to the tool is a fixed point of the schema:
    parsing the parsed value again admits it and changes nothing. *)
Theorem queryTaskSchema_idempotent (input args : QueryTaskArgs.t) :
  queryTaskSchema input = Some args →
  queryTaskSchema args = Some args.
Proof.
  unfold queryTaskSchema.
  destruct (1 <=? JS.length (QueryTaskArgs.query input)) eqn:Hquery; [| done].
  destruct (positiveIntOptional (QueryTaskArgs.page input)) eqn:Hpage; [| done].
  destruct (pageSizeSchema (QueryTaskArgs.pageSize input)) eqn:Hsize; [| done].
  intros [= <-]. cbn [QueryTaskArgs.query QueryTaskArgs.isId QueryTaskArgs.page
                      QueryTaskArgs.pageSize default].
  rewrite Hquery.
  assert (positiveIntOptional (Some (default 1%Q (QueryTaskArgs.page input))) = true)
    as ->.
  { by destruct (QueryTaskArgs.page input). }
  assert (pageSizeSchema (Some (default 5%Q (QueryTaskArgs.pageSize input))) = true)
    as ->.
  { by destruct (QueryTaskArgs.pageSize input). }
  done.
Qed.

(** ** [planTask] *)

Lemma filter_partition (f : Task.t → bool) (tasks : list Task.t) :
  List.filter f tasks ++ List.filter (λ task, negb (f task)) tasks ≡ₚ tasks.
Proof.
  induction tasks as [| task rest IH]; simpl; [done |].
  destruct (f task); simpl.
  - by rewrite IH.
  - by rewrite <- Permutation_middle, IH.
Qed.

Section PlanTaskProperties.

Context (import_meta_url : string) (fileURLToPath path_dirname : string → string)
  (path_resolve path_join : string → string → string)
  (env_DATA_DIR : option string).

(** When existing tasks are asked for and the read returns, [planTask]
    splits them in two: the completed tasks, and all others under the name
    of pending tasks (tasks in progress among them).  Each task of the store
    is in exactly one of the two lists, and each list keeps the order of
    the store. *)
Theorem planTask_partitions_tasks {W : Type} (h : handler W) (w w1 : W)
    (args : PlanTaskArgs.t) (allTasks : list Task.t) :
  PlanTaskArgs.existingTasksReference args = Some true →
  h _ getAllTasks w = (JS.Returned allTasks, w1) →
  ∃ params : PlanTaskPromptParams.t,
    exec h (planTask import_meta_url fileURLToPath path_dirname path_resolve
                   path_join env_DATA_DIR args) w
    = Run (JS.Returned (PlanResponse.mk [getPlanTaskPrompt params])) w1
        [Call getAllTasks]
    ∧ PlanTaskPromptParams.completedTasks params
        ++ PlanTaskPromptParams.pendingTasks params ≡ₚ allTasks
    ∧ Forall (λ task, Task.status task = COMPLETED)
        (PlanTaskPromptParams.completedTasks params)
    ∧ Forall (λ task, Task.status task ≠ COMPLETED)
        (PlanTaskPromptParams.pendingTasks params)
    ∧ PlanTaskPromptParams.completedTasks params `sublist_of` allTasks
    ∧ PlanTaskPromptParams.pendingTasks params `sublist_of` allTasks.
Proof.
  intros Hasked Hread. unfold planTask. rewrite Hasked.
  change (default false (Some true)) with true. cbv iota.
  rewrite exec_bind, exec_try_catch, exec_bind, exec_await, Hread.
  unfold andThen, orElse; simpl.
  eexists. split; [reflexivity |]. simpl. split_and!.
  - apply filter_partition.
  - apply Forall_forall. intros task [_ Hdone]%list_elem_of_In%filter_In.
    by apply bool_decide_eq_true in Hdone.
  - apply Forall_forall. intros task [_ Hopen]%list_elem_of_In%filter_In.
    by apply negb_true_iff, bool_decide_eq_false in Hopen.
  - clear. induction allTasks as [| task rest IH]; simpl; [done |].
    destruct (isCompleted task); by constructor.
  - clear. induction allTasks as [| task rest IH]; simpl; [done |].
    destruct (negb (isCompleted task)); by constructor.
Qed.

(** [planTask] reads the store only on request and never rejects: without
    a request for existing tasks it makes no call, and when the read is
    rejected the error is dropped; in both cases the prompt gets two empty
    lists. *)
Theorem planTask_reads_on_request_only {W : Type} (h : handler W) (w : W)
    (args : PlanTaskArgs.t) :
  (PlanTaskArgs.existingTasksReference args ≠ Some true →
   ∃ params : PlanTaskPromptParams.t,
     exec h (planTask import_meta_url fileURLToPath path_dirname path_resolve
                   path_join env_DATA_DIR args) w
     = Run (JS.Returned (PlanResponse.mk [getPlanTaskPrompt params])) w []
     ∧ PlanTaskPromptParams.completedTasks params = []
     ∧ PlanTaskPromptParams.pendingTasks params = [])
  ∧ (∀ (error : JS.thrown) (w1 : W),
       PlanTaskArgs.existingTasksReference args = Some true →
       h _ getAllTasks w = (JS.Threw error, w1) →
       ∃ params : PlanTaskPromptParams.t,
         exec h (planTask import_meta_url fileURLToPath path_dirname path_resolve
                   path_join env_DATA_DIR args) w
         = Run (JS.Returned (PlanResponse.mk [getPlanTaskPrompt params])) w1
             [Call getAllTasks]
         ∧ PlanTaskPromptParams.completedTasks params = []
         ∧ PlanTaskPromptParams.pendingTasks params = []).
Proof.
  split.
  - intros Hnot. unfold planTask.
    destruct (PlanTaskArgs.existingTasksReference args) as [[|] |]; [done | |];
      by eexists.
  - intros error w1 Hasked Hread. unfold planTask. rewrite Hasked.
  change (default false (Some true)) with true. cbv iota.
    rewrite exec_bind, exec_try_catch, exec_bind, exec_await, Hread.
    unfold andThen, orElse; simpl. by eexists.
Qed.

(** The memory directory follows the environment variable [DATA_DIR] only
    when it is set to a non-empty string; unset or empty, the directory is
    the one under [data] in the project root, three levels above the
    module. *)
Theorem memory_dir_follows_environment :
  (blank env_DATA_DIR →
   MEMORY_DIR import_meta_url fileURLToPath path_dirname path_resolve path_join
     env_DATA_DIR
   = path_join
       (path_join
          (path_resolve (path_dirname (fileURLToPath import_meta_url)) "../../..")
          "data")
       "memory")
  ∧ (∀ dir : string,
       env_DATA_DIR = Some dir → dir ≠ "" →
       MEMORY_DIR import_meta_url fileURLToPath path_dirname path_resolve path_join
         env_DATA_DIR
       = path_join dir "memory").
Proof.
  unfold MEMORY_DIR. split.
  - by intros [-> | ->].
  - intros dir -> Hdir. cbv zeta.
    assert (truthy dir = true) as ->; [| done].
    apply negb_true_iff, String.eqb_neq, Hdir.
Qed.

End PlanTaskProperties.

(** ** The further properties at sample data *)

Lemma other_modes_one_creating_call_witness :
  overwrite ≠ clearAllTasks
  ∧ ¬ sharesName [Demo.printer; Demo.dangling]
  ∧ ∃ response : Response.t,
      result (exec taskModelHandler
                (splitTasks
                   (SplitTasksArgs.mk overwrite [Demo.printer; Demo.dangling] None))
                Demo.store)
      = JS.Returned response
      ∧ calls (exec taskModelHandler
                 (splitTasks
                    (SplitTasksArgs.mk overwrite [Demo.printer; Demo.dangling] None))
                 Demo.store)
        = [Call (batchCreateOrUpdateTasks [Demo.printer; Demo.dangling] overwrite None);
           Call getAllTasks]
      ∧ TaskCreationResult.backupFilePath <$> Response.ephemeral response = Some None
      ∧ (TaskCreationResult.success <$> Response.ephemeral response = Some true
         ↔ ∃ createdTasks,
             (taskModelHandler _
                (batchCreateOrUpdateTasks [Demo.printer; Demo.dangling] overwrite None)
                Demo.store).1
             = JS.Returned createdTasks).
Proof.
  assert (overwrite ≠ clearAllTasks) as Hmode; [discriminate |].
  assert (¬ sharesName [Demo.printer; Demo.dangling]) as Hnames.
  { apply not_sharesName. reflexivity. }
  split; [exact Hmode |]. split; [exact Hnames |].
  exact (other_modes_one_creating_call taskModelHandler Demo.store overwrite
           [Demo.printer; Demo.dangling] None Hmode Hnames).
Defined.

Lemma clearAllTasks_creates_after_clear_witness :
  ¬ sharesName [Demo.printer]
  ∧ taskModelHandler _ modelClearAllTasks Demo.readOnlyBackups
    = (JS.Returned
         (ClearResult.mk false "PersistenceError: the backup could not be written"
            None),
       Demo.readOnlyBackups)
  ∧ ∃ response : Response.t,
      result (exec taskModelHandler
                (splitTasks (SplitTasksArgs.mk clearAllTasks [Demo.printer] None))
                Demo.readOnlyBackups)
      = JS.Returned response
      ∧ calls (exec taskModelHandler
                 (splitTasks (SplitTasksArgs.mk clearAllTasks [Demo.printer] None))
                 Demo.readOnlyBackups)
        = [Call modelClearAllTasks; Call getAllTasks]
      ∧ TaskCreationResult.backupFilePath <$> Response.ephemeral response = Some None
      ∧ (TaskCreationResult.success <$> Response.ephemeral response = Some true
         ↔ false = true
           ∧ ∃ createdTasks,
               (taskModelHandler _
                  (batchCreateOrUpdateTasks [Demo.printer] append None)
                  Demo.readOnlyBackups).1
               = JS.Returned createdTasks).
Proof.
  assert (¬ sharesName [Demo.printer]) as Hnames.
  { apply not_sharesName. reflexivity. }
  split; [exact Hnames |]. split; [reflexivity |].
  exact (clearAllTasks_creates_after_clear taskModelHandler Demo.readOnlyBackups
           Demo.readOnlyBackups [Demo.printer] None
           (ClearResult.mk false "PersistenceError: the backup could not be written"
              None)
           Hnames eq_refl).
Defined.

Lemma getAllTasks_failure_falls_back_witness :
  ¬ sharesName [Demo.printer]
  ∧ (∃ (createdTasks : list Task.t) (s' : TaskModel.Store),
       Faults.readsFail _ (batchCreateOrUpdateTasks [Demo.printer] append None)
         Demo.store
       = (JS.Returned createdTasks, s')
       ∧ Faults.readsFail _ getAllTasks s' = (JS.Threw Faults.offline, s')
       ∧ exec Faults.readsFail
           (splitTasks (SplitTasksArgs.mk append [Demo.printer] None)) Demo.store
         = Run (JS.Returned
                  {| Response.content :=
                       [getSplitTasksPrompt append createdTasks createdTasks];
                     Response.isError := None;
                     Response.ephemeral :=
                       Some {| TaskCreationResult.success := true;
                               TaskCreationResult.message :=
                                 successMessage append createdTasks;
                               TaskCreationResult.backupFilePath := None |} |})
             s'
             [Call (batchCreateOrUpdateTasks [Demo.printer] append None);
              Call getAllTasks])
  ∧ Faults.readsFail _ modelClearAllTasks Demo.store
    = (JS.Returned (ClearResult.mk true "all tasks were cleared" (Some "tasks_backup_2")),
       TaskModel.cleared Demo.store)
  ∧ ∃ s' : TaskModel.Store,
      Faults.readsFail _ (batchCreateOrUpdateTasks [Demo.printer] append None)
        (TaskModel.cleared Demo.store)
      = (JS.Returned [Sample.printerTask], s')
      ∧ Faults.readsFail _ getAllTasks s' = (JS.Threw Faults.offline, s')
      ∧ exec Faults.readsFail
          (splitTasks (SplitTasksArgs.mk clearAllTasks [Demo.printer] None)) Demo.store
        = Run (JS.Returned
                 {| Response.content :=
                      [getSplitTasksPrompt clearAllTasks [Sample.printerTask]
                         [Sample.printerTask]];
                    Response.isError := None;
                    Response.ephemeral :=
                      Some {| TaskCreationResult.success := true;
                              TaskCreationResult.message :=
                                "all tasks were cleared" +:+ nl
                                  +:+ "成功創建了 1 個新任務。";
                              TaskCreationResult.backupFilePath :=
                                Some "tasks_backup_2" |} |})
            s'
            [Call modelClearAllTasks;
             Call (batchCreateOrUpdateTasks [Demo.printer] append None);
             Call getAllTasks].
Proof.
  assert (append ≠ clearAllTasks) as Hmode; [discriminate |].
  assert (¬ sharesName [Demo.printer]) as Hnames.
  { apply not_sharesName. reflexivity. }
  split; [exact Hnames |]. split; [| split; [reflexivity |]].
  - eexists _, _. split; [reflexivity |]. split; [reflexivity |].
    exact (proj1 (getAllTasks_failure_falls_back Faults.readsFail [Demo.printer]
                    None _ Faults.offline Hnames)
             append Demo.store _ _ Hmode eq_refl eq_refl).
  - eexists. split; [reflexivity |]. split; [reflexivity |].
    exact (proj2 (getAllTasks_failure_falls_back Faults.readsFail [Demo.printer]
                    None [Sample.printerTask] Faults.offline Hnames)
             Demo.store (TaskModel.cleared Demo.store) _ _
             (ClearResult.mk true "all tasks were cleared" (Some "tasks_backup_2"))
             eq_refl eq_refl eq_refl eq_refl).
Defined.

Lemma clear_rejection_is_answered_witness :
  ¬ sharesName [Demo.printer]
  ∧ Faults.allFail _ modelClearAllTasks Demo.store = (JS.Threw Faults.offline, Demo.store)
  ∧ exec Faults.allFail
      (splitTasks (SplitTasksArgs.mk clearAllTasks [Demo.printer] None)) Demo.store
    = Run (JS.Returned (splitTasksErrorResponse Faults.offline)) Demo.store
        [Call modelClearAllTasks].
Proof.
  assert (¬ sharesName [Demo.printer]) as Hnames.
  { apply not_sharesName. reflexivity. }
  split; [exact Hnames |]. split; [reflexivity |].
  exact (clear_rejection_is_answered Faults.allFail Demo.store Demo.store
           [Demo.printer] None Faults.offline Hnames eq_refl).
Defined.

Lemma splitTasksRaw_bad_text_makes_no_call_witness :
  ∃ prefix : string,
    exec taskModelHandler
      (splitTasksRaw unit (λ _, JS.Threw (JS.Error "Unexpected token"))
         (λ _, ParseFailure "never reached")
         (SplitTasksRawArgs.mk clearAllTasks "[{" None))
      Demo.store
    = Run (JS.Returned
             (Response.mk [str (prefix +:+ "Unexpected token")] None None))
        Demo.store [].
Proof.
  exact (proj1 (splitTasksRaw_bad_text_makes_no_call taskModelHandler Demo.store
                  (λ _ : string, @JS.Threw unit (JS.Error "Unexpected token"))
                  (λ _ : unit, ParseFailure "never reached")
                  clearAllTasks "[{" None)
           (JS.Error "Unexpected token") eq_refl).
Defined.

Lemma line_range_answer_iff_malformed_witness :
  updateTaskContentSchema
    (UpdateTaskContentArgs.mk "task-0" None None None
       (Some [Demo.halfRange]) None None None) = true
  ∧ result (exec taskModelHandler
              (updateTaskContent
                 (UpdateTaskContentArgs.mk "task-0" None None None
                    (Some [Demo.halfRange]) None None None))
              Demo.store)
    = JS.Returned (lineRangeErrorResponse "task-0").
Proof.
  split; [reflexivity |].
  apply (line_range_answer_iff_malformed taskModelHandler Demo.store
           (UpdateTaskContentArgs.mk "task-0" None None None
              (Some [Demo.halfRange]) None None None)
           eq_refl).
  exists [Demo.halfRange], Demo.halfRange.
  split; [reflexivity |]. split; [apply list_elem_of_here | exact I].
Defined.

Lemma found_task_update_is_forwarded_witness :
  ∃ (updated : UpdateResult.t) (response : Response.t),
    taskModelHandler _ (getTaskById "task-1") Demo.store
    = (JS.Returned (Some Demo.completed), Demo.store)
    ∧ taskModelHandler _
        (modelUpdateTaskContent "task-1"
           (updatesOf (UpdateTaskContentArgs.mk "task-1" None None (Some "a note")
                         None None None None)))
        Demo.store
      = (JS.Returned updated, Demo.store)
    ∧ exec taskModelHandler
        (updateTaskContent
           (UpdateTaskContentArgs.mk "task-1" None None (Some "a note")
              None None None None))
        Demo.store
      = Run (JS.Returned response) Demo.store
          [Call (getTaskById "task-1");
           Call (modelUpdateTaskContent "task-1"
                   (updatesOf (UpdateTaskContentArgs.mk "task-1" None None
                                 (Some "a note") None None None None)))]
    ∧ Response.isError response = Some true.
Proof.
  destruct (found_task_update_is_forwarded taskModelHandler Demo.store Demo.store
              Demo.store
              (UpdateTaskContentArgs.mk "task-1" None None (Some "a note")
                 None None None None)
              Demo.completed
              (UpdateResult.mk false "StateError: a Completed task cannot be edited"
                 None)
              eq_refl eq_refl eq_refl eq_refl)
    as (response & Hrun & Hflag & _).
  eexists _, response. split; [reflexivity |]. split; [reflexivity |].
  split; [exact Hrun |]. apply Hflag. reflexivity.
Defined.

Lemma model_rejection_propagates_witness :
  Faults.allFail _ (getTaskById "task-0") Demo.store = (JS.Threw Faults.offline, Demo.store)
  ∧ exec Faults.allFail
      (verifyTask (VerifyTaskArgs.mk "task-0" "the parser reads every input" 90%Q))
      Demo.store
    = Run (JS.Threw Faults.offline) Demo.store [Call (getTaskById "task-0")].
Proof.
  split; [reflexivity |].
  exact (proj1 (model_rejection_propagates Faults.allFail Demo.store Demo.store
                  "task-0" Faults.offline)
           eq_refl "the parser reads every input" 90%Q).
Defined.

Lemma verify_below_threshold_only_reads_witness :
  (79 < 80)%Q
  ∧ calls (exec taskModelHandler
             (verifyTask (VerifyTaskArgs.mk "task-0" "the parser reads every input"
                            79%Q))
             Demo.store)
    = [Call (getTaskById "task-0")].
Proof.
  assert (79 < 80)%Q as Hscore; [reflexivity |].
  split; [exact Hscore |].
  exact (verify_below_threshold_only_reads taskModelHandler Demo.store "task-0"
           "the parser reads every input" 79%Q Hscore).
Defined.

Lemma completion_is_two_writes_witness :
  ∃ (r1 : option Task.t) (s2 : TaskModel.Store),
    Faults.statusFails _ (updateTaskSummary "task-0" "the parser reads every input")
      Demo.store
    = (JS.Returned r1, s2)
    ∧ TaskModel.tasks s2 ≠ TaskModel.tasks Demo.store
    ∧ exec Faults.statusFails
        (verifyTask (VerifyTaskArgs.mk "task-0" "the parser reads every input" 90%Q))
        Demo.store
      = Run (JS.Threw Faults.offline) s2
          [Call (getTaskById "task-0");
           Call (updateTaskSummary "task-0" "the parser reads every input");
           Call (updateTaskStatus "task-0" COMPLETED)].
Proof.
  assert (80 <= 90)%Q as Hscore; [discriminate |].
  eexists _, _. split; [reflexivity |]. split; [discriminate |].
  exact (proj2 (completion_is_two_writes Faults.statusFails Demo.store Demo.store
                  "task-0" "the parser reads every input" 90%Q Demo.inProgress
                  eq_refl eq_refl Hscore)
           _ Faults.offline _ _ eq_refl eq_refl).
Defined.

Lemma admitted_query_uses_schema_defaults_witness :
  queryTaskSchema (QueryTaskArgs.mk "parser" None None None)
  = Some (QueryTaskArgs.mk "parser" (Some false) (Some 1%Q) (Some 5%Q))
  ∧ calls (exec taskModelHandler
             (queryTask (QueryTaskArgs.mk "parser" (Some false) (Some 1%Q) (Some 5%Q)))
             Demo.store)
    = [Call (searchTasksWithCommand "parser" false 1%Q 5%Q)].
Proof.
  split; [reflexivity |].
  exact (admitted_query_uses_schema_defaults taskModelHandler Demo.store
           (QueryTaskArgs.mk "parser" None None None)
           (QueryTaskArgs.mk "parser" (Some false) (Some 1%Q) (Some 5%Q)) eq_refl).
Defined.

Lemma queryTaskSchema_idempotent_witness :
  queryTaskSchema (QueryTaskArgs.mk "parser" None (Some 2%Q) None)
  = Some (QueryTaskArgs.mk "parser" (Some false) (Some 2%Q) (Some 5%Q))
  ∧ queryTaskSchema (QueryTaskArgs.mk "parser" (Some false) (Some 2%Q) (Some 5%Q))
    = Some (QueryTaskArgs.mk "parser" (Some false) (Some 2%Q) (Some 5%Q)).
Proof.
  split; [reflexivity |].
  exact (queryTaskSchema_idempotent (QueryTaskArgs.mk "parser" None (Some 2%Q) None)
           (QueryTaskArgs.mk "parser" (Some false) (Some 2%Q) (Some 5%Q)) eq_refl).
Defined.

Lemma planTask_partitions_tasks_witness :
  ∃ params : PlanTaskPromptParams.t,
    exec taskModelHandler
      (planTask "file:///app/dist/tools/task/planTask.js" id Faults.dirname
         Faults.join Faults.join None
         (PlanTaskArgs.mk "plan the next release of the parser" None (Some true)))
      Demo.store
    = Run (JS.Returned (PlanResponse.mk [getPlanTaskPrompt params])) Demo.store
        [Call getAllTasks]
    ∧ PlanTaskPromptParams.completedTasks params
        ++ PlanTaskPromptParams.pendingTasks params
      ≡ₚ [Demo.inProgress; Demo.completed]
    ∧ Forall (λ task, Task.status task = COMPLETED)
        (PlanTaskPromptParams.completedTasks params)
    ∧ Forall (λ task, Task.status task ≠ COMPLETED)
        (PlanTaskPromptParams.pendingTasks params)
    ∧ PlanTaskPromptParams.completedTasks params
        `sublist_of` [Demo.inProgress; Demo.completed]
    ∧ PlanTaskPromptParams.pendingTasks params
        `sublist_of` [Demo.inProgress; Demo.completed].
Proof.
  exact (planTask_partitions_tasks "file:///app/dist/tools/task/planTask.js" id
           Faults.dirname Faults.join Faults.join None taskModelHandler Demo.store
           Demo.store
           (PlanTaskArgs.mk "plan the next release of the parser" None (Some true))
           [Demo.inProgress; Demo.completed] eq_refl eq_refl).
Defined.

Lemma planTask_reads_on_request_only_witness :
  ∃ params : PlanTaskPromptParams.t,
    exec Faults.allFail
      (planTask "file:///app/dist/tools/task/planTask.js" id Faults.dirname
         Faults.join Faults.join None
         (PlanTaskArgs.mk "plan the next release of the parser" None (Some true)))
      Demo.store
    = Run (JS.Returned (PlanResponse.mk [getPlanTaskPrompt params])) Demo.store
        [Call getAllTasks]
    ∧ PlanTaskPromptParams.completedTasks params = []
    ∧ PlanTaskPromptParams.pendingTasks params = [].
Proof.
  exact (proj2 (planTask_reads_on_request_only
                  "file:///app/dist/tools/task/planTask.js" id Faults.dirname
                  Faults.join Faults.join None Faults.allFail Demo.store
                  (PlanTaskArgs.mk "plan the next release of the parser" None
                     (Some true)))
           Faults.offline Demo.store eq_refl eq_refl).
Defined.

Lemma memory_dir_follows_environment_witness :
  blank (Some "")
  ∧ MEMORY_DIR "file:///app/dist/tools/task/planTask.js" id Faults.dirname
      Faults.join Faults.join (Some "")
    = "file:///app/dist/tools/task/planTask.js/../../../../data/memory".
Proof.
  assert (blank (Some "")) as Hblank; [by right |].
  split; [exact Hblank |].
  exact (proj1 (memory_dir_follows_environment
                  "file:///app/dist/tools/task/planTask.js" id Faults.dirname
                  Faults.join Faults.join (Some ""))
           Hblank).
Defined.
